(** * parallel_llm.core: the fan-out / aggregate / decide / validate pipeline

    A shallow embedding of [src/parallel_llm/core.py].  The coroutines of the
    class [ParallelLLM] become functions that return the exception or value
    the coroutine ends with, together with the provider calls and back-off
    sleeps it performed.  Everything outside the file (the OpenAI client,
    pydantic, json, asyncio's scheduler, [errors.handle_openai_error]) is a
    field of the class [Env], so every theorem holds for every behaviour of
    these collaborators. *)

From stdpp Require Import base list strings gmap sorting.
From Stdlib Require Import DecimalString QArith.QArith_base.

Open Scope string_scope.
Open Scope nat_scope.

(** ** Python values *)

(** Field annotations of a pydantic model ([str], [int], ...). *)
Inductive annotation :=
| AStr
| AInt
| AFloat
| ABool.

(** Classes.  [Class name base fields] is
    [class name(base): f1: t1; f2: t2; ...]. *)
Inductive pyclass :=
| PyObject
| BaseModel
| Class (name : string) (base : pyclass) (fields : list (string * annotation)).

(** Objects that travel through the pipeline as parsed responses. *)
#[warnings="-register-all"]
Inductive pyval :=
| PyNone
| PyStr (s : string)
| PyInt (z : Z)
| PyFloat (q : Q)
| PyDict (items : list (string * pyval))
| Instance (cls : pyclass) (values : list (string * pyval)).

(** What a caller may hand over as [response_format]: a class, or any other
    object ([None], a dict such as [{"type": "json_object"}], ...). *)
Inductive format_arg :=
| FmtClass (c : pyclass)
| FmtObject (v : pyval).

Global Instance annotation_eq_dec : EqDecision annotation.
Proof. solve_decision. Defined.

Global Instance pyclass_eq_dec : EqDecision pyclass.
Proof. solve_decision. Defined.

Definition __name__ (c : pyclass) : string :=
  match c with
  | PyObject => "object"
  | BaseModel => "BaseModel"
  | Class name _ _ => name
  end.

(** [issubclass(c, d)]: [c] is [d] or derives from it. *)
Fixpoint issubclass (c d : pyclass) : bool :=
  bool_decide (c = d) ||
  match c with
  | Class _ base _ => issubclass base d
  | _ => false
  end.

(** [isinstance(v, c)].  The built-in values are instances of classes the
    pipeline never names, so only model instances can answer [True]. *)
Definition isinstance (v : pyval) (c : pyclass) : bool :=
  match v with
  | Instance k _ => issubclass k c
  | _ => false
  end.

(** One more annotation for a class whose fields so far are [fs]: a name
    that is there already is overridden where it stands, a new name goes to
    the end. *)
Definition add_field (fs : list string) (f : string) : list string :=
  if decide (f ∈ fs) then fs else (fs ++ [f])%list.

(** The fields a class declares, inherited ones included: those of the
    base, in their order, then the names the class body adds.  A field the
    class body declares again keeps its place. *)
Fixpoint model_fields (c : pyclass) : list string :=
  match c with
  | Class _ base fields => foldl add_field (model_fields base) fields.*1
  | _ => []
  end.

Definition declares_field (c : pyclass) (f : string) : bool :=
  bool_decide (f ∈ model_fields c).

(** A value carries field [f] when it is a model instance whose class
    declares [f] or whose stored values have it, or a dict with that key. *)
Definition contains_field (v : pyval) (f : string) : bool :=
  match v with
  | Instance k values => declares_field k f || bool_decide (f ∈ values.*1)
  | PyDict items => bool_decide (f ∈ items.*1)
  | _ => false
  end.

(** Python truthiness, as used by [not x] and [if x]. *)
Definition truthy (v : pyval) : bool :=
  match v with
  | PyNone => false
  | PyStr s => negb (bool_decide (s = ""))
  | PyInt z => negb (bool_decide (z = 0%Z))
  | PyFloat q => negb (Qeq_bool q 0)
  | PyDict items => negb (bool_decide (items = []))
  | Instance _ _ => true
  end.

Definition format_truthy (f : format_arg) : bool :=
  match f with
  | FmtClass _ => true
  | FmtObject v => truthy v
  end.

(** ** Exceptions and outcomes *)

(** Modelled from the spec: [errors.py] is not among the sources.  One
    constructor per exception class that [core.py] imports and raises or
    catches (the error taxonomy of the spec, under the names the code uses),
    taken as sibling classes; [ProcessingError] accepts the keyword
    [failed_processors], which line 166 passes.  Any other exception
    (TypeError, KeyError, pydantic's own validation error, whatever
    [handle_openai_error] builds) is [OtherError]. *)
Inductive exn :=
| ValidationError (msg : string)
| ConfigurationError (msg : string)
| ProcessingError (msg : string) (failed_processors : option nat)
| DecisionMakerError (msg : string)
| OtherError (cls msg : string).

(** [str(e)] inside an f-string. *)
Definition exn_str (e : exn) : string :=
  match e with
  | ValidationError msg | ConfigurationError msg | ProcessingError msg _
  | DecisionMakerError msg | OtherError _ msg => msg
  end.

Definition is_ProcessingError (e : exn) : bool :=
  match e with ProcessingError _ _ => true | _ => false end.

(** How a call or a coroutine ends. *)
Inductive outcome (A : Type) :=
| Returned (a : A)
| Raised (e : exn).
Arguments Returned {A} a.
Arguments Raised {A} e.

Definition is_Returned {A} (o : outcome A) : bool :=
  match o with Returned _ => true | Raised _ => false end.

(** [isinstance(result, Exception)] on an entry of [gather]'s result list. *)
Definition is_Raised {A} (o : outcome A) : bool := negb (is_Returned o).

(** ** Requests, configuration, environment *)

(** The keyword arguments of [beta.chat.completions.parse]. *)
Record request := {
  req_model : string;
  req_messages : list (gmap string string);
  req_response_format : pyclass;
  req_kwargs : gmap string pyval
}.

(** Modelled from the spec: [config.py] is not among the sources.  The
    fields are those of the spec's configuration interface, under the names
    [core.py] reads them by.  Counts are naturals: the processor count and
    the retry count are never negative. *)
Record FrameworkConfig := {
  num_processors : nat;
  max_retries : nat;
  timeout : Q;
  decision_maker_model : string;
  decision_maker_temperature : Q;
  decision_maker_prompt : string
}.

(** Who awaits a provider call: fan-out task [processor_i], or the decision
    step (which runs in the caller's own task). *)
Inductive task :=
| Processor (i : nat)
| DecisionMaker.

(** How one awaited [wait_for(client.beta.chat.completions.parse(...))]
    ends.  [RateLimitError] derives from [APIError] in the openai package;
    [APIError] below is any other [APIError].  Every ending by an exception
    is an ending by an instance of [Exception], which is what the [except]
    clauses of [core.py] catch.  A run that is cancelled
    ([asyncio.CancelledError], a [BaseException] that none of these clauses
    catches) is not among the runs described here. *)
Inductive provider_outcome :=
| Completed (parsed : pyval)
| TimeoutError
| RateLimitError (msg : string)
| APIError (msg : string)
| OtherException (e : exn).

(** What the coroutines do that the outside can observe. *)
Inductive event :=
| Call (t : task) (attempt : nat) (r : request)
| Sleep (t : task) (seconds : nat).

Definition is_Call (ev : event) : bool :=
  match ev with Call _ _ _ => true | Sleep _ _ => false end.

(** Number of provider calls in a trace. *)
Definition calls (tr : list event) : nat := length (List.filter is_Call tr).

(** The collaborators of [core.py].  [openai_client t k r] is how the
    [k]-th attempt (0-indexed) of task [t] ends when it sends request [r];
    [finish_time i] is the instant at which fan-out task [i] completes. *)
Class Env := {
  openai_client : task → nat → request → provider_outcome;
  handle_openai_error : provider_outcome → exn;
  model_validate : pyclass → pyval → outcome pyval;
  model_dump : pyval → outcome pyval;
  model_dump_json : pyval → string;
  json_dumps : pyval → string;
  finish_time : nat → nat
}.

(** The object [self]. *)
Record ParallelLLM := {
  config : FrameworkConfig
}.

(** ** Coroutines as traced computations *)

Definition io (A : Type) : Type := list event * outcome A.

Definition ret {A} (a : A) : io A := ([], Returned a).
Definition raise {A} (e : exn) : io A := ([], Raised e).
Definition emit (ev : event) : io unit := ([ev], Returned tt).

Definition bind {A B} (m : io A) (k : A → io B) : io B :=
  match m with
  | (tr, Returned a) => let '(tr', r) := k a in ((tr ++ tr')%list, r)
  | (tr, Raised e) => (tr, Raised e)
  end.

(** [try: m except Exception as e: h e]. *)
Definition try_except {A} (m : io A) (h : exn → io A) : io A :=
  match m with
  | (tr, Returned a) => (tr, Returned a)
  | (tr, Raised e) => let '(tr', r) := h e in ((tr ++ tr')%list, r)
  end.

Global Instance io_ret : MRet io := @ret.
Global Instance io_bind : MBind io := λ A B k m, bind m k.

Definition trace {A} (m : io A) : list event := m.1.
Definition result {A} (m : io A) : outcome A := m.2.

(** Decimal rendering of a number inside an f-string. *)
Definition nat_str (n : nat) : string :=
  NilEmpty.string_of_uint (Nat.to_uint n).

Section Core.
Context `{Env}.
Variable self : ParallelLLM.

(** *** [_make_single_request] (lines 66-123)

    [attempt_loop t req todo] is the [for attempt in ...] loop over the
    attempts still to do.  Each [except] clause either raises on the last
    attempt or sleeps [2 ** attempt] and goes round again; a loop that runs
    out without returning makes the coroutine return [None]. *)
Fixpoint attempt_loop (t : task) (req : request) (todo : list nat) : io pyval :=
  match todo with
  | [] => ret PyNone
  | attempt :: todo' =>
      emit (Call t attempt req) ;;
      match openai_client t attempt req with
      | Completed parsed => ret parsed
      | TimeoutError =>
          if bool_decide (attempt = max_retries (config self))
          then raise (ProcessingError
                        ("Request timed out after "
                           ++ nat_str (max_retries (config self) + 1)
                           ++ " attempts") None)
          else emit (Sleep t (2 ^ attempt)) ;; attempt_loop t req todo'
      | RateLimitError msg =>
          if bool_decide (attempt = max_retries (config self))
          then raise (handle_openai_error (RateLimitError msg))
          else emit (Sleep t (2 ^ attempt)) ;; attempt_loop t req todo'
      | APIError msg =>
          if bool_decide (attempt = max_retries (config self))
          then raise (handle_openai_error (APIError msg))
          else emit (Sleep t (2 ^ attempt)) ;; attempt_loop t req todo'
      | OtherException e =>
          if bool_decide (attempt = max_retries (config self))
          then raise (ProcessingError ("Unexpected error: " ++ exn_str e) None)
          else emit (Sleep t (2 ^ attempt)) ;; attempt_loop t req todo'
      end
  end.

Definition _make_single_request (t : task) (req : request) : io pyval :=
  attempt_loop t req (seq 0 (max_retries (config self) + 1)).

(** *** [_create_reasoning_format] (lines 35-43)

    The subclass [ReasoningFormat(original_format)] with the one extra
    field [reasoning: str], renamed after the original.  Classes are
    compared by structure here; Python compares them by identity, and makes
    one such class per call of [_process_parallel_requests]. *)
Definition _create_reasoning_format (original_format : pyclass) : pyclass :=
  Class (__name__ original_format ++ "WithReasoning") original_format
        [("reasoning", AStr)].

(** *** [asyncio.gather] over the tasks, with [return_exceptions=True]

    The tasks finish in the order of their [finish_time]; each result, value
    or exception, is stored under the index of its task, and the list of
    results is read off once every task is done.  The trace lists the events
    of the tasks one task after the other: the interleaving of concurrent
    tasks is not modelled, every event names its task. *)
Definition finishes_before : relation nat :=
  λ i j, finish_time i ≤ finish_time j.

Global Instance finishes_before_dec i j : Decision (finishes_before i j).
Proof. unfold finishes_before. apply _. Defined.

Definition completion_order (n : nat) : list nat :=
  merge_sort finishes_before (seq 0 n).

Definition settle {A} (outcomes : list A) : list A :=
  omap id
    (foldl (λ slots i, <[i := outcomes !! i]> slots)
           (replicate (length outcomes) None)
           (completion_order (length outcomes))).

Definition gather (tasks : list (io pyval)) : io (list (outcome pyval)) :=
  (concat (trace <$> tasks), Returned (settle (result <$> tasks))).

(** *** [_process_parallel_requests] (lines 125-174) *)

(** The loop of lines 156-163 over [enumerate(results)]. *)
Fixpoint collect (results : list (outcome pyval))
    (successful_results : list pyval) (failed_count : nat) : list pyval * nat :=
  match results with
  | [] => (successful_results, failed_count)
  | Raised _ :: results' =>
      collect results' successful_results (failed_count + 1)
  | Returned r :: results' =>
      collect results' (successful_results ++ [r])%list failed_count
  end.

Definition fanout_request (model : string) (messages : list (gmap string string))
    (response_format : pyclass) (pass_reasoning : bool)
    (kwargs : gmap string pyval) : request :=
  {| req_model := model;
     req_messages := messages;
     req_response_format :=
       if pass_reasoning then _create_reasoning_format response_format
       else response_format;
     req_kwargs := kwargs |}.

Definition _process_parallel_requests (model : string)
    (messages : list (gmap string string)) (response_format : pyclass)
    (pass_reasoning : bool) (kwargs : gmap string pyval) : io (list pyval) :=
  try_except
    (let tasks :=
       (λ i, _make_single_request (Processor i)
               (fanout_request model messages response_format
                               pass_reasoning kwargs))
         <$> seq 0 (num_processors (config self)) in
     results ← gather tasks;
     let '(successful_results, failed_count) := collect results [] 0 in
     match successful_results with
     | [] => raise (ProcessingError "All parallel processors failed"
                                    (Some failed_count))
     | _ => ret successful_results
     end)
    (λ e, if is_ProcessingError e then raise e
          else raise (ProcessingError
                        ("Parallel processing error: " ++ exn_str e) None)).

(** *** [_make_decision] (lines 176-234) *)

Definition nl : string := String (Ascii.ascii_of_nat 10) "".

(** [hasattr(v, 'model_dump_json')], [hasattr(v, 'model_dump')]: [v] is an
    instance of a pydantic model. *)
Definition is_model_instance (v : pyval) : bool := isinstance v BaseModel.

(** [msg[key]] on a dict. *)
Definition getitem (msg : gmap string string) (key : string) : io string :=
  match msg !! key with
  | Some v => ret v
  | None => raise (OtherError "KeyError" ("'" ++ key ++ "'"))
  end.

(** [responses[0]]. *)
Definition first (responses : list pyval) : io pyval :=
  match responses !! 0 with
  | Some r => ret r
  | None => raise (OtherError "IndexError" "list index out of range")
  end.

Definition response_text (i : nat) (response : pyval) : string :=
  "Response " ++ nat_str (i + 1) ++ ":" ++ nl ++
  (if is_model_instance response then model_dump_json response
   else json_dumps response).

Fixpoint context_lines (original_messages : list (gmap string string))
    : io (list string) :=
  match original_messages with
  | [] => ret []
  | msg :: rest =>
      role ← getitem msg "role";
      content ← getitem msg "content";
      lines ← context_lines rest;
      ret ((role ++ ": " ++ content) :: lines)
  end.

Definition decision_messages (original_context all_responses : string)
    : list (gmap string string) :=
  [ {[ "role" := "system";
       "content" := decision_maker_prompt (config self) ]};
    {[ "role" := "user";
       "content" :=
         "Original Query Context:" ++ nl ++ original_context ++ nl ++ nl ++
         "All Responses to Analyze:" ++ nl ++ all_responses ++ nl ++ nl ++
         "Please analyze these responses and return the best one or synthesize a better response using the same format as the original responses." ]} ].

Definition decision_request (response_format : pyclass)
    (original_context all_responses : string) : request :=
  {| req_model := decision_maker_model (config self);
     req_messages := decision_messages original_context all_responses;
     req_response_format := response_format;
     req_kwargs :=
       {[ "temperature" :=
            PyFloat (decision_maker_temperature (config self)) ]} |}.

(** Lines 187-225: render the candidates and the conversation, then one
    call through [_make_single_request] with the decision maker's model and
    temperature and the caller's own [response_format]. *)
Definition synthesis_call (responses : list pyval) (response_format : pyclass)
    (original_messages : list (gmap string string)) : io pyval :=
  let response_texts := imap response_text responses in
  lines ← context_lines original_messages;
  let original_context := String.concat nl lines in
  let all_responses := String.concat (nl ++ nl) response_texts in
  decision_response ←
    _make_single_request DecisionMaker
      (decision_request response_format original_context all_responses);
  ret decision_response.

Definition _make_decision (responses : list pyval) (response_format : pyclass)
    (original_messages : list (gmap string string)) : io pyval :=
  try_except
    (if bool_decide (length responses = 1) then first responses
     else synthesis_call responses response_format original_messages)
    (λ e, match responses with
          | _ :: _ => fallback ← first responses; ret fallback
          | [] => raise (DecisionMakerError
                           ("Decision maker failed and no fallback available: "
                              ++ exn_str e))
          end).

(** *** [_parse_internal] (lines 236-299) and [parse] (lines 301-328) *)

Definition lift {A} (o : outcome A) : io A := ([], o).

(** Step 3, lines 285-292. *)
Definition validate_final_response (final_response : pyval)
    (response_format : pyclass) : io pyval :=
  if negb (isinstance final_response response_format) then
    try_except
      (if is_model_instance final_response then
         dumped ← lift (model_dump final_response);
         lift (model_validate response_format dumped)
       else lift (model_validate response_format final_response))
      (λ e, raise (ValidationError
                     ("Failed to validate final response: " ++ exn_str e)))
  else ret final_response.

Definition _parse_internal (model : string)
    (messages : list (gmap string string)) (response_format : format_arg)
    (pass_reasoning : bool) (kwargs : gmap string pyval) : io pyval :=
  try_except
    (if bool_decide (model = "") then
       raise (ValidationError "Model name is required")
     else if bool_decide (messages = []) then
       raise (ValidationError "Messages are required")
     else if negb (format_truthy response_format) then
       raise (ValidationError "Response format is required")
     else
       match response_format with
       | FmtObject _ =>
           (* line 265: issubclass raises when its first argument is not a class *)
           raise (OtherError "TypeError" "issubclass() arg 1 must be a class")
       | FmtClass fmt =>
           if negb (issubclass fmt BaseModel) then
             raise (ValidationError "Response format must be a Pydantic BaseModel")
           else
             parallel_responses ←
               _process_parallel_requests model messages fmt
                                          pass_reasoning kwargs;
             final_response ← _make_decision parallel_responses fmt messages;
             validate_final_response final_response fmt
       end)
    (λ e, match e with
          | ValidationError _ | ConfigurationError _
          | ProcessingError _ _ | DecisionMakerError _ => raise e
          | OtherError _ _ =>
              raise (ProcessingError ("Unexpected error: " ++ exn_str e) None)
          end).

Definition parse (model : string) (messages : list (gmap string string))
    (response_format : format_arg) (pass_reasoning : bool)
    (kwargs : gmap string pyval) : io pyval :=
  _parse_internal model messages response_format pass_reasoning kwargs.

End Core.

Arguments _make_single_request {_} self t req.
Arguments _process_parallel_requests {_} self model messages response_format pass_reasoning kwargs.
Arguments synthesis_call {_} self responses response_format original_messages.
Arguments _make_decision {_} self responses response_format original_messages.
Arguments validate_final_response {_} final_response response_format.
Arguments parse {_} self model messages response_format pass_reasoning kwargs.

(** ** Concrete collaborators, for the scenarios below *)

(** A pydantic-like validator: an instance of the class (or of a subclass)
    is accepted as it is, a dict is accepted when it has every declared
    field, anything else ([None], a string, a number) is rejected. *)
Definition pydantic_validate (c : pyclass) (v : pyval) : outcome pyval :=
  match v with
  | Instance k _ =>
      if issubclass k c then Returned v
      else Raised (OtherError "ValidationError" "Input should be an instance")
  | PyDict items =>
      if forallb (λ f, bool_decide (f ∈ items.*1)) (model_fields c)
      then Returned (Instance c (filter (λ kv, kv.1 ∈ model_fields c) items))
      else Raised (OtherError "ValidationError" "Field required")
  | _ => Raised (OtherError "ValidationError"
                   "Input should be a valid dictionary or instance")
  end.

Definition pydantic_dump (v : pyval) : outcome pyval :=
  match v with
  | Instance _ values => Returned (PyDict values)
  | _ => Raised (OtherError "AttributeError" "model_dump")
  end.

(** An environment with a scripted provider and scheduler. *)
Definition scripted (client : task → nat → request → provider_outcome)
    (finish : nat → nat) : Env :=
  {| openai_client := client;
     handle_openai_error := λ o,
       match o with
       | RateLimitError msg => OtherError "RateLimitError" msg
       | APIError msg => OtherError "APIError" msg
       | _ => OtherError "ParallelLLMError" "unknown"
       end;
     model_validate := pydantic_validate;
     model_dump := pydantic_dump;
     model_dump_json := λ _, "{}";
     json_dumps := λ _, "null";
     finish_time := finish |}.

Definition llm (processors retries : nat) : ParallelLLM :=
  {| config :=
       {| num_processors := processors;
          max_retries := retries;
          timeout := 30%Q;
          decision_maker_model := "gpt-4o";
          decision_maker_temperature := 0%Q;
          decision_maker_prompt := "Pick the best response." |} |}.

(** [class Answer(BaseModel): answer: str] and a one-message conversation. *)
Definition Answer : pyclass := Class "Answer" BaseModel [("answer", AStr)].

Definition question : list (gmap string string) :=
  [ {[ "role" := "user"; "content" := "What is 6 x 7?" ]} ].

(** The value a well-behaved provider parses for request [r]: an instance of
    the requested class with every declared field filled in. *)
Definition parsed_for (r : request) (text : string) : pyval :=
  Instance (req_response_format r)
           ((λ f, (f, PyStr text)) <$> model_fields (req_response_format r)).

(** Every call times out. *)
Definition always_timeout : Env :=
  scripted (λ _ _ _, TimeoutError) (λ i, i).


(** The provider answers every call at once with a well-formed value. *)
Definition well_behaved : Env :=
  scripted (λ _ _ r, Completed (parsed_for r "42")) (λ i, i).

(** Processor 0 times out on every attempt; every other processor is rate
    limited once and then answers with a value of its own; the decision
    maker's call always fails; the processors finish in reverse order. *)
Definition flaky : Env :=
  scripted
    (λ t attempt r,
       match t, attempt with
       | Processor 0, _ => TimeoutError
       | Processor _, 0 => RateLimitError "429"
       | Processor i, _ => Completed (parsed_for r ("answer " ++ nat_str i))
       | DecisionMaker, _ => APIError "500"
       end)
    (λ i, 10 - i).

(** Every fan-out call is answered at once with nothing parsed; the
    decision maker's call always fails. *)
Definition refusing_fanout : Env :=
  scripted
    (λ t _ _,
       match t with
       | Processor _ => Completed PyNone
       | DecisionMaker => APIError "500"
       end)
    (λ i, i).

(** As [flaky], with a decision maker that answers. *)
Definition flaky_fanout : Env :=
  scripted
    (λ t attempt r,
       match t, attempt with
       | Processor 0, _ => TimeoutError
       | Processor _, 0 => RateLimitError "429"
       | Processor i, _ => Completed (parsed_for r ("answer " ++ nat_str i))
       | DecisionMaker, _ => Completed (parsed_for r "42")
       end)
    (λ i, 10 - i).

(** ** Vocabulary of the properties *)

(** The schedule of [n] attempts: attempt 0 at once, and after each attempt
    [k] that is followed by another one, a sleep of [2 ^ k] before attempt
    [k + 1]. *)
Fixpoint retries_from (t : task) (req : request) (k more : nat) : list event :=
  match more with
  | 0 => []
  | S more' =>
      Sleep t (2 ^ k) :: Call t (S k) req :: retries_from t req (S k) more'
  end.

Definition retry_trace (t : task) (req : request) (n : nat) : list event :=
  match n with
  | 0 => []
  | S more => Call t 0 req :: retries_from t req 0 more
  end.

(** An attempt that ended in any exception: timeout, rate limit, API error
    or anything else. *)
Definition failed (o : provider_outcome) : bool :=
  match o with Completed _ => false | _ => true end.

(** How many of the attempts [attempt], [attempt + 1], ... fail in a row,
    looking at no more than [budget] of them. *)
Fixpoint leading_failures `{Env} (t : task) (req : request)
    (attempt budget : nat) : nat :=
  match budget with
  | 0 => 0
  | S budget' =>
      if failed (openai_client t attempt req)
      then S (leading_failures t req (S attempt) budget')
      else 0
  end.

(** The values among a list of outcomes, in the order of the list. *)
Definition successes (outcomes : list (outcome pyval)) : list pyval :=
  omap (λ o, match o with Returned v => Some v | Raised _ => None end) outcomes.

Definition failures (outcomes : list (outcome pyval)) : nat :=
  length (List.filter is_Raised outcomes).

(** Outcome of every fan-out processor, by processor index. *)
Definition fanout_outcomes `{Env} (self : ParallelLLM) (req : request)
    : list (outcome pyval) :=
  (λ i, result (_make_single_request self (Processor i) req))
    <$> seq 0 (num_processors (config self)).

(** The checks of lines 259-266 pass. *)
Definition valid_inputs (model : string) (messages : list (gmap string string))
    (fmt : pyclass) : Prop :=
  model ≠ "" ∧ messages ≠ [] ∧ issubclass fmt BaseModel = true.

(** The provider only ever parses instances of the class it was asked for. *)
Definition provider_conforms `{Env} : Prop :=
  ∀ t k r v, openai_client t k r = Completed v →
             ∃ values, v = Instance (req_response_format r) values.


(** The same collaborators under another timing of the fan-out tasks. *)
Definition with_finish_time (E : Env) (finish : nat → nat) : Env :=
  {| openai_client := @openai_client E;
     handle_openai_error := @handle_openai_error E;
     model_validate := @model_validate E;
     model_dump := @model_dump E;
     model_dump_json := @model_dump_json E;
     json_dumps := @json_dumps E;
     finish_time := finish |}.

(** The three steps of [_parse_internal] after the input checks. *)
Definition steps `{Env} (self : ParallelLLM) (model : string)
    (messages : list (gmap string string)) (fmt : pyclass)
    (pass_reasoning : bool) (kwargs : gmap string pyval) : io pyval :=
  parallel_responses ←
    _process_parallel_requests self model messages fmt pass_reasoning kwargs;
  final_response ← _make_decision self parallel_responses fmt messages;
  validate_final_response final_response fmt.

(** An event of a run in which the fan-out asks for [fanout_format] and the
    decision maker for [decision_format]. *)
Definition uses_format (fanout_format decision_format : pyclass)
    (ev : event) : Prop :=
  match ev with
  | Call (Processor _) _ r => req_response_format r = fanout_format
  | Call DecisionMaker _ r => req_response_format r = decision_format
  | Sleep _ _ => True
  end.

(** The error of line 166. *)
Definition all_processors_failed (n : nat) : exn :=
  ProcessingError "All parallel processors failed" (Some n).

(** ** Vocabulary of the further properties *)

(** Seconds slept in a trace. *)
Fixpoint total_sleep (tr : list event) : nat :=
  match tr with
  | [] => 0
  | Sleep _ seconds :: tr' => seconds + total_sleep tr'
  | Call _ _ _ :: tr' => total_sleep tr'
  end.

(** An event of the fan-out of [self] for request [req]: a call by one of
    the [num_processors] tasks, within the attempt budget, carrying [req]
    itself; or a sleep of such a task. *)
Definition fanout_event (self : ParallelLLM) (req : request)
    (ev : event) : Prop :=
  match ev with
  | Call (Processor i) attempt r =>
      i < num_processors (config self)
      ∧ attempt ≤ max_retries (config self) ∧ r = req
  | Sleep (Processor i) _ => i < num_processors (config self)
  | _ => False
  end.

(** An event of the decision step of [self] for the class [fmt]: a call
    within the attempt budget, to the configured decision-maker model, for
    [fmt], with the temperature as only option and a conversation of the
    system prompt and one user message; or a sleep of that step. *)
Definition decision_event (self : ParallelLLM) (fmt : pyclass)
    (ev : event) : Prop :=
  match ev with
  | Call DecisionMaker attempt r =>
      attempt ≤ max_retries (config self)
      ∧ req_model r = decision_maker_model (config self)
      ∧ req_response_format r = fmt
      ∧ req_kwargs r
        = {[ "temperature" :=
               PyFloat (decision_maker_temperature (config self)) ]}
      ∧ ∃ content,
          req_messages r
          = [ {[ "role" := "system";
                 "content" := decision_maker_prompt (config self) ]};
              {[ "role" := "user"; "content" := content ]} ]
  | Sleep DecisionMaker _ => True
  | _ => False
  end.

(** A conversation with a message that has no ["role"] or no ["content"]. *)
Definition lacks_key (messages : list (gmap string string)) : Prop :=
  ∃ msg, msg ∈ messages ∧ (msg !! "role" = None ∨ msg !! "content" = None).

(** Length of the chain of base classes under a class. *)
Fixpoint depth (c : pyclass) : nat :=
  match c with
  | Class _ base _ => S (depth base)
  | _ => 0
  end.

(** A message without content. *)
Definition headless : list (gmap string string) :=
  [ {[ "role" := "user"; "content" := "What is 6 x 7?" ]};
    {[ "role" := "user" ]} ].

(** ** Traced computations: equations *)

Section Io.
Context {A B : Type}.

Lemma trace_bind (m : io A) (k : A → io B) :
  trace (m ≫= k) =
  match result m with
  | Returned a => (trace m ++ trace (k a))%list
  | Raised _ => trace m
  end.
Proof.
  destruct m as [tr [a|e]]; cbn; [|done].
  by destruct (k a).
Qed.

Lemma result_bind (m : io A) (k : A → io B) :
  result (m ≫= k) =
  match result m with
  | Returned a => result (k a)
  | Raised e => Raised e
  end.
Proof.
  destruct m as [tr [a|e]]; cbn; [|done].
  by destruct (k a).
Qed.

Lemma trace_try_except (m : io A) (h : exn → io A) :
  trace (try_except m h) =
  match result m with
  | Returned _ => trace m
  | Raised e => (trace m ++ trace (h e))%list
  end.
Proof.
  destruct m as [tr [a|e]]; cbn; [done|].
  by destruct (h e).
Qed.

Lemma result_try_except (m : io A) (h : exn → io A) :
  result (try_except m h) =
  match result m with
  | Returned a => Returned a
  | Raised e => result (h e)
  end.
Proof.
  destruct m as [tr [a|e]]; cbn; [done|].
  by destruct (h e).
Qed.

Lemma bind_ret (a : A) (k : A → io B) : ret a ≫= k = k a.
Proof. cbn. by destruct (k a). Qed.

Lemma io_eta (m : io A) : m = (trace m, result m).
Proof. by destruct m. Qed.

(** A handler that re-raises what it catches changes nothing. *)
Lemma try_except_reraise (m : io A) (h : exn → io A) :
  (∀ e, result m = Raised e → h e = raise e) → try_except m h = m.
Proof.
  destruct m as [tr [a|e]]; cbn; [done|]. intros Hh.
  rewrite (Hh e eq_refl). cbn. by rewrite app_nil_r.
Qed.

End Io.

Lemma trace_emit {A} (ev : event) (m : io A) :
  trace (emit ev ;; m) = ev :: trace m.
Proof. by rewrite trace_bind. Qed.

Lemma result_emit {A} (ev : event) (m : io A) :
  result (emit ev ;; m) = result m.
Proof. by rewrite result_bind. Qed.

(** ** The single-call executor *)

Section SingleCall.
Context `{Env} (self : ParallelLLM) (t : task) (req : request).

Lemma calls_retries_from k more :
  calls (retries_from t req k more) = more.
Proof.
  revert k. induction more as [|more IH]; intros k; [done|].
  cbn. unfold calls in IH. by rewrite IH.
Qed.

Lemma calls_retry_trace n : calls (retry_trace t req n) = n.
Proof.
  destruct n as [|more]; [done|].
  cbn. f_equal. apply calls_retries_from.
Qed.

Lemma leading_failures_le attempt budget :
  leading_failures t req attempt budget ≤ budget.
Proof.
  revert attempt. induction budget as [|b IH]; intros attempt; cbn; [done|].
  destruct (failed _); [|lia]. specialize (IH (S attempt)). lia.
Qed.

(** The loop from attempt [a] on, with [b] more attempts allowed after it. *)
Lemma attempt_loop_trace b a :
  a + b = max_retries (config self) →
  trace (attempt_loop self t req (seq a (S b))) =
  Call t a req :: retries_from t req a (leading_failures t req a b).
Proof.
  revert a. induction b as [|b IH]; intros a Hab.
  - cbn [seq attempt_loop leading_failures retries_from].
    rewrite trace_emit. f_equal.
    assert (a = max_retries (config self)) as -> by lia.
    rewrite bool_decide_eq_true_2 by done.
    by destruct (openai_client t _ req).
  - cbn [seq attempt_loop]. rewrite trace_emit. f_equal.
    cbn [leading_failures].
    rewrite bool_decide_eq_false_2 by lia.
    specialize (IH (S a) ltac:(lia)).
    destruct (openai_client t a req); cbn [failed retries_from];
      [done|rewrite trace_emit; f_equal; exact IH ..].
Qed.

Lemma single_request_trace :
  trace (_make_single_request self t req) =
  retry_trace t req (S (leading_failures t req 0 (max_retries (config self)))).
Proof.
  unfold _make_single_request. rewrite Nat.add_1_r.
  by rewrite attempt_loop_trace.
Qed.

End SingleCall.

(** C6: a single executor calls the provider at most [max_retries + 1]
    times, one more time than the number of failed attempts it met, whatever
    the kind of failure (timeout, rate limit, API error, other exception);
    and its trace is exactly the back-off schedule: between attempt [k] and
    attempt [k + 1] one sleep of [2 ^ k]. *)
Theorem single_request_retry_backoff `{Env} (self : ParallelLLM)
    (t : task) (req : request) :
  let tr := trace (_make_single_request self t req) in
  calls tr = S (leading_failures t req 0 (max_retries (config self))) ∧
  1 ≤ calls tr ≤ max_retries (config self) + 1 ∧
  tr = retry_trace t req (calls tr).
Proof.
  cbv zeta. rewrite single_request_trace, calls_retry_trace.
  pose proof (leading_failures_le t req 0 (max_retries (config self))).
  repeat split; lia.
Qed.

(** ** The dispatcher and the aggregator *)

Section Settle.
Context `{Env} {A : Type}.
Implicit Types (outcomes : list A) (slots : list (option A)).

Lemma store_length outcomes order slots :
  length (foldl (λ slots i, <[i := outcomes !! i]> slots) slots order)
  = length slots.
Proof.
  revert slots. induction order as [|i order IH]; intros slots; [done|].
  cbn. by rewrite IH, length_insert.
Qed.

Lemma store_lookup outcomes order slots j :
  j < length slots → j ∈ order →
  foldl (λ slots i, <[i := outcomes !! i]> slots) slots order !! j
  = Some (outcomes !! j).
Proof.
  revert slots. induction order as [|i order IH]; intros slots Hj Hin.
  { by apply elem_of_nil in Hin. }
  cbn. destruct (decide (j ∈ order)) as [Hlater|Hlast].
  - apply IH; [by rewrite length_insert|done].
  - apply elem_of_cons in Hin as [->|?]; [|done].
    clear IH. revert slots Hj.
    induction order as [|i' order IH]; intros slots Hj; cbn.
    + by apply list_lookup_insert_eq.
    + apply not_elem_of_cons in Hlast as [Hne Hlast].
      rewrite list_insert_insert_ne by done.
      apply IH; [done|by rewrite length_insert].
Qed.

Lemma omap_id_Some (l : list A) : omap id (Some <$> l) = l.
Proof. induction l as [|x l IH]; [done|]. cbn. by rewrite IH. Qed.

(** [gather] hands the results back in task order, whatever the order in
    which the tasks finished. *)
Lemma settle_task_order outcomes : settle outcomes = outcomes.
Proof.
  unfold settle.
  transitivity (omap id (Some <$> outcomes)); [|apply omap_id_Some].
  f_equal. apply list_eq. intros j. rewrite list_lookup_fmap.
  destruct (decide (j < length outcomes)) as [Hj|Hj].
  - rewrite store_lookup.
    + by destruct (lookup_lt_is_Some_2 outcomes j Hj) as [x ->].
    + by rewrite length_replicate.
    + unfold completion_order. rewrite merge_sort_Permutation.
      apply elem_of_seq. lia.
  - rewrite (lookup_ge_None_2 outcomes) by lia.
    apply lookup_ge_None_2.
    rewrite store_length, length_replicate. lia.
Qed.

End Settle.

Lemma collect_spec results successful_results failed_count :
  collect results successful_results failed_count =
  ((successful_results ++ successes results)%list,
   failed_count + failures results).
Proof.
  revert successful_results failed_count.
  induction results as [|[r|e] results IH]; intros acc k;
    cbn [collect]; [|rewrite IH ..]; unfold successes, failures; cbn.
  - by rewrite app_nil_r, Nat.add_0_r.
  - by rewrite <-app_assoc.
  - f_equal. lia.
Qed.

Lemma successes_failures_length outcomes :
  length (successes outcomes) + failures outcomes = length outcomes.
Proof.
  induction outcomes as [|[r|e] outcomes IH]; cbn; [done|..];
    unfold successes, failures in IH; cbn; lia.
Qed.

Lemma successes_nil_iff outcomes :
  successes outcomes = [] ↔ ∀ o, o ∈ outcomes → is_Raised o = true.
Proof.
  induction outcomes as [|[r|e] outcomes IH]; cbn.
  - split; [|done]. intros _ o Ho. by apply elem_of_nil in Ho.
  - split; [done|]. intros Hall.
    specialize (Hall (Returned r) ltac:(left)). done.
  - fold (successes outcomes). rewrite IH. split.
    + intros Hall o [->|?]%elem_of_cons; [done|by apply Hall].
    + intros Hall o Ho. apply Hall. by right.
Qed.

Section Fanout.
Context `{Env} (self : ParallelLLM).
Context (model : string) (messages : list (gmap string string)).
Context (response_format : pyclass) (pass_reasoning : bool).
Context (kwargs : gmap string pyval).

Lemma fanout_outcomes_length req :
  length (fanout_outcomes self req) = num_processors (config self).
Proof. unfold fanout_outcomes. by rewrite length_fmap, length_seq. Qed.

Lemma fanout_outcomes_lookup req i :
  i < num_processors (config self) →
  fanout_outcomes self req !! i
  = Some (result (_make_single_request self (Processor i) req)).
Proof.
  intros Hi. unfold fanout_outcomes.
  by rewrite list_lookup_fmap, lookup_seq_lt.
Qed.

(** What the fan-out step ends with, in terms of the processors' outcomes. *)
Lemma process_parallel_requests_result :
  let outcomes :=
    fanout_outcomes self
      (fanout_request model messages response_format pass_reasoning kwargs) in
  result (_process_parallel_requests self model messages response_format
                                     pass_reasoning kwargs) =
  match successes outcomes with
  | [] => Raised (all_processors_failed (failures outcomes))
  | _ => Returned (successes outcomes)
  end.
Proof.
  cbv zeta. unfold _process_parallel_requests.
  rewrite result_try_except, result_bind. cbn [gather result snd].
  rewrite settle_task_order, <-list_fmap_compose.
  change (result ∘ _ <$> _) with
    (fanout_outcomes self
       (fanout_request model messages response_format pass_reasoning kwargs)).
  rewrite collect_spec. cbn [app].
  by destruct (successes _).
Qed.

End Fanout.

(** ** The decision step *)

Section Decision.
Context `{Env} (self : ParallelLLM).
Context (response_format : pyclass).
Context (original_messages : list (gmap string string)).

(** With candidates at hand the decision step always returns: the single
    candidate, the decision maker's answer, or the first candidate. *)
Lemma make_decision_cons r0 rest :
  result (_make_decision self (r0 :: rest) response_format original_messages) =
  match rest with
  | [] => Returned r0
  | _ => match result (synthesis_call self (r0 :: rest) response_format
                                      original_messages) with
         | Returned d => Returned d
         | Raised _ => Returned r0
         end
  end.
Proof.
  unfold _make_decision. rewrite result_try_except.
  destruct rest as [|r1 rest]; [done|].
  rewrite bool_decide_eq_false_2 by (cbn; lia).
  by destruct (result (synthesis_call _ _ _ _)).
Qed.

Lemma make_decision_nil :
  _make_decision self [] response_format original_messages =
  try_except (synthesis_call self [] response_format original_messages)
    (λ e, raise (DecisionMakerError
                   ("Decision maker failed and no fallback available: "
                      ++ exn_str e))).
Proof. done. Qed.

End Decision.

(** C5: with exactly one candidate the decision step returns it at once:
    its trace is empty, so no provider call (and no sleep) is made. *)
Theorem single_candidate_short_circuit `{Env} (self : ParallelLLM)
    (candidate : pyval) (response_format : pyclass)
    (original_messages : list (gmap string string)) :
  result (_make_decision self [candidate] response_format original_messages)
    = Returned candidate ∧
  trace (_make_decision self [candidate] response_format original_messages)
    = [] ∧
  calls (trace (_make_decision self [candidate] response_format
                               original_messages)) = 0.
Proof. done. Qed.

(** ** Final validation and the whole pipeline *)

Lemma issubclass_refl c : issubclass c c = true.
Proof. destruct c; cbn; by rewrite ?bool_decide_eq_true_2. Qed.

Lemma issubclass_reasoning_format c :
  issubclass (_create_reasoning_format c) c = true.
Proof.
  cbn. rewrite issubclass_refl. apply orb_true_r.
Qed.

Lemma elem_of_add_field fs f g : g ∈ add_field fs f ↔ g ∈ fs ∨ g = f.
Proof.
  unfold add_field. destruct (decide (f ∈ fs)) as [Hin|Hout].
  - split; [by left|]. by intros [?| ->].
  - rewrite elem_of_app, list_elem_of_singleton. done.
Qed.

Lemma reasoning_format_declares_reasoning c :
  declares_field (_create_reasoning_format c) "reasoning" = true.
Proof.
  unfold declares_field. apply bool_decide_eq_true_2. cbn.
  apply elem_of_add_field. by right.
Qed.

Lemma validate_trace `{Env} v fmt : trace (validate_final_response v fmt) = [].
Proof.
  unfold validate_final_response.
  destruct (isinstance v fmt); cbn [negb]; [done|].
  rewrite trace_try_except.
  destruct (is_model_instance v).
  - rewrite result_bind, trace_bind. cbn.
    destruct (model_dump v); cbn; [|done].
    by destruct (model_validate fmt a).
  - cbn. by destruct (model_validate fmt v).
Qed.

Lemma validate_instance `{Env} v fmt :
  isinstance v fmt = true → validate_final_response v fmt = ([], Returned v).
Proof. intros Hv. unfold validate_final_response. by rewrite Hv. Qed.


Section Pipeline.
Context `{Env} (self : ParallelLLM).
Context (model : string) (messages : list (gmap string string)).
Context (fmt : pyclass) (pass_reasoning : bool) (kwargs : gmap string pyval).
Hypothesis Hvalid : valid_inputs model messages fmt.

Lemma process_parallel_requests_raises e :
  result (_process_parallel_requests self model messages fmt
                                     pass_reasoning kwargs) = Raised e →
  ∃ n, e = all_processors_failed n.
Proof.
  rewrite process_parallel_requests_result. cbv zeta.
  destruct (successes _); [|done]. intros [= <-]. by eexists.
Qed.

Lemma make_decision_raises responses e :
  result (_make_decision self responses fmt messages) = Raised e →
  ∃ msg, e = DecisionMakerError msg.
Proof.
  destruct responses as [|r0 rest].
  - rewrite make_decision_nil, result_try_except.
    destruct (result (synthesis_call _ _ _ _)); [done|].
    intros [= <-]. by eexists.
  - rewrite make_decision_cons. destruct rest; [done|].
    by destruct (result (synthesis_call _ _ _ _)).
Qed.

Lemma validate_raises v e :
  result (validate_final_response v fmt) = Raised e →
  ∃ msg, e = ValidationError msg.
Proof.
  unfold validate_final_response.
  destruct (isinstance v fmt); cbn [negb]; [done|].
  rewrite result_try_except.
  destruct (result (if is_model_instance v then _ else _)); [done|].
  intros [= <-]. by eexists.
Qed.

Lemma parse_steps :
  parse self model messages (FmtClass fmt) pass_reasoning kwargs
  = steps self model messages fmt pass_reasoning kwargs.
Proof.
  destruct Hvalid as (Hmodel & Hmessages & Hfmt).
  unfold parse, _parse_internal.
  rewrite !bool_decide_eq_false_2 by done. cbn [format_truthy negb].
  rewrite Hfmt. cbn [negb].
  fold (steps self model messages fmt pass_reasoning kwargs).
  apply try_except_reraise. intros e Hsteps.
  assert (is_ProcessingError e = true ∨ (∃ msg, e = DecisionMakerError msg)
          ∨ ∃ msg, e = ValidationError msg) as He.
  { revert Hsteps. unfold steps. rewrite result_bind.
    destruct (result (_process_parallel_requests _ _ _ _ _ _))
      as [rs|e1] eqn:H1.
    - rewrite result_bind.
      destruct (result (_make_decision _ _ _ _)) as [d|e2] eqn:H2.
      + intros ?%validate_raises. by right; right.
      + intros [= <-]. apply make_decision_raises in H2. by right; left.
    - intros [= <-]. apply process_parallel_requests_raises in H1 as [n ->].
      by left. }
  destruct He as [He|[[msg ->]|[msg ->]]]; [by destruct e|done..].
Qed.

End Pipeline.

(** C8: a candidate that is already an instance of [response_format] goes
    through the final validation step unchanged, with no effect. *)
Theorem conforming_candidate_unchanged `{Env} (candidate : pyval)
    (response_format : pyclass) :
  isinstance candidate response_format = true →
  validate_final_response candidate response_format = ([], Returned candidate).
Proof. apply validate_instance. Qed.

Lemma conforming_candidate_unchanged_witness :
  let candidate := Instance Answer [("answer", PyStr "42")] in
  isinstance candidate Answer = true ∧
  @validate_final_response well_behaved candidate Answer
  = ([], Returned candidate).
Proof.
  cbv zeta. split; [reflexivity|].
  apply (@conforming_candidate_unchanged well_behaved). reflexivity.
Defined.

Section PipelineOutcomes.
Context `{Env} (self : ParallelLLM).
Context (model : string) (messages : list (gmap string string)).
Context (fmt : pyclass) (pass_reasoning : bool) (kwargs : gmap string pyval).
Hypothesis Hvalid : valid_inputs model messages fmt.

Lemma parse_all_failed :
  (∀ i, i < num_processors (config self) →
        is_Raised (result (_make_single_request self (Processor i)
                             (fanout_request model messages fmt
                                             pass_reasoning kwargs))) = true) →
  result (parse self model messages (FmtClass fmt) pass_reasoning kwargs)
  = Raised (all_processors_failed (num_processors (config self))).
Proof.
  intros Hall. rewrite parse_steps by done. unfold steps.
  rewrite result_bind, process_parallel_requests_result. cbv zeta.
  set (outcomes := fanout_outcomes self _).
  assert (successes outcomes = []) as Hnone.
  { apply successes_nil_iff. intros o [i Hi]%list_elem_of_lookup.
    pose proof (lookup_lt_Some _ _ _ Hi) as Hlt.
    unfold outcomes in Hlt, Hi. rewrite fanout_outcomes_length in Hlt.
    rewrite fanout_outcomes_lookup in Hi by done.
    injection Hi as <-. by apply Hall. }
  pose proof (successes_failures_length outcomes) as Hlen.
  rewrite Hnone in *. cbn in Hlen.
  unfold outcomes in Hlen at 2. rewrite fanout_outcomes_length in Hlen.
  by rewrite Hlen.
Qed.

End PipelineOutcomes.

(** C2: when every one of the [num_processors] fan-out processors fails,
    the pipeline raises the all-processors-failed error, and the failure
    count it carries is [num_processors]. *)
Theorem all_processors_failed_count `{Env} (self : ParallelLLM)
    (model : string) (messages : list (gmap string string))
    (response_format : pyclass) (pass_reasoning : bool)
    (kwargs : gmap string pyval) :
  valid_inputs model messages response_format →
  (∀ i, i < num_processors (config self) →
        is_Raised (result (_make_single_request self (Processor i)
                             (fanout_request model messages response_format
                                             pass_reasoning kwargs))) = true) →
  result (parse self model messages (FmtClass response_format)
                pass_reasoning kwargs)
  = Raised (ProcessingError "All parallel processors failed"
                            (Some (num_processors (config self)))).
Proof. intros Hvalid Hall. by apply parse_all_failed. Qed.

Lemma all_processors_failed_count_witness :
  valid_inputs "gpt-4o-mini" question Answer ∧
  (∀ i, i < 5 →
        is_Raised (result (@_make_single_request always_timeout (llm 5 2)
                             (Processor i)
                             (fanout_request "gpt-4o-mini" question Answer
                                             false ∅))) = true) ∧
  result (@parse always_timeout (llm 5 2) "gpt-4o-mini" question
                 (FmtClass Answer) false ∅)
  = Raised (ProcessingError "All parallel processors failed" (Some 5)).
Proof.
  assert (valid_inputs "gpt-4o-mini" question Answer) as Hvalid.
  { unfold valid_inputs, question. by repeat split. }
  assert (∀ i, i < 5 →
        is_Raised (result (@_make_single_request always_timeout (llm 5 2)
                             (Processor i)
                             (fanout_request "gpt-4o-mini" question Answer
                                             false ∅))) = true) as Hall.
  { intros i _. reflexivity. }
  split; [exact Hvalid|]. split; [exact Hall|].
  exact (@all_processors_failed_count always_timeout (llm 5 2) "gpt-4o-mini"
           question Answer false ∅ Hvalid Hall).
Defined.

(** ** What a returned value can be *)

Section Returned.
Context `{Env} (self : ParallelLLM).

Lemma attempt_loop_returned t req b a v :
  a + b = max_retries (config self) →
  result (attempt_loop self t req (seq a (S b))) = Returned v →
  ∃ k, openai_client t k req = Completed v.
Proof.
  revert a. induction b as [|b IH]; intros a Hab.
  - cbn [seq attempt_loop]. rewrite result_emit.
    assert (a = max_retries (config self)) as -> by lia.
    rewrite bool_decide_eq_true_2 by done.
    destruct (openai_client t _ req) eqn:Hk; try done.
    intros [= <-]. eauto.
  - cbn [seq attempt_loop]. rewrite result_emit.
    rewrite bool_decide_eq_false_2 by lia.
    specialize (IH (S a) ltac:(lia)).
    destruct (openai_client t a req) eqn:Hk;
      [intros [= <-]; eauto|rewrite result_emit; exact IH ..].
Qed.

(** A value a single executor returns is a value the provider parsed. *)
Lemma single_request_returned t req v :
  result (_make_single_request self t req) = Returned v →
  ∃ k, openai_client t k req = Completed v.
Proof.
  unfold _make_single_request. rewrite Nat.add_1_r.
  by apply attempt_loop_returned.
Qed.

Lemma synthesis_call_returned responses fmt messages d :
  result (synthesis_call self responses fmt messages) = Returned d →
  ∃ k req, req_response_format req = fmt
           ∧ openai_client DecisionMaker k req = Completed d.
Proof.
  unfold synthesis_call. rewrite result_bind.
  destruct (result (context_lines messages)) as [lines|e]; [|done].
  rewrite result_bind.
  destruct (result (_make_single_request _ _ _)) as [d'|e] eqn:Hd; [|done].
  intros [= <-]. apply single_request_returned in Hd as [k Hk].
  eexists k, _. split; [|exact Hk]. done.
Qed.

Lemma successes_elem outcomes v :
  v ∈ successes outcomes ↔ Returned v ∈ outcomes.
Proof.
  unfold successes. rewrite list_elem_of_omap. split.
  - intros ([w|e] & Hin & Heq); [|done]. by injection Heq as ->.
  - intros Hin. by exists (Returned v).
Qed.

Lemma fanout_success_returned req v :
  v ∈ successes (fanout_outcomes self req) →
  ∃ i k, openai_client (Processor i) k req = Completed v.
Proof.
  rewrite successes_elem. unfold fanout_outcomes.
  intros (i & Hv & _)%list_elem_of_fmap.
  symmetry in Hv. apply single_request_returned in Hv as [k Hk]. eauto.
Qed.

End Returned.

Section OneSuccess.
Context `{Env} (self : ParallelLLM).
Context (model : string) (messages : list (gmap string string)).
Context (fmt : pyclass) (pass_reasoning : bool) (kwargs : gmap string pyval).
Hypothesis Hvalid : valid_inputs model messages fmt.
Context (i : nat).
Hypothesis Hi : i < num_processors (config self).
Hypothesis Hsuccess :
  is_Returned (result (_make_single_request self (Processor i)
                         (fanout_request model messages fmt
                                         pass_reasoning kwargs))) = true.



End OneSuccess.






(** ** Task order *)

Lemma successes_first outcomes i v :
  outcomes !! i = Some (Returned v) →
  (∀ j o, j < i → outcomes !! j = Some o → is_Raised o = true) →
  ∃ rest, successes outcomes = v :: rest.
Proof.
  revert i. induction outcomes as [|o outcomes IH]; intros i Hi Hbefore.
  { done. }
  destruct i as [|i].
  - injection Hi as ->. by eexists.
  - pose proof (Hbefore 0 o ltac:(lia) eq_refl) as Ho.
    destruct o as [w|e]; [done|]. cbn.
    apply (IH i); [done|].
    intros j o' Hj Ho'. apply (Hbefore (S j) o'); [lia|done].
Qed.

Section Timing.
Context (E : Env) (finish : nat → nat) (self : ParallelLLM).

Lemma attempt_loop_finish_time t req todo :
  @attempt_loop (with_finish_time E finish) self t req todo
  = @attempt_loop E self t req todo.
Proof.
  induction todo as [|attempt todo IH]; [done|].
  cbn [attempt_loop]. rewrite IH. done.
Qed.

Lemma fanout_outcomes_finish_time req :
  @fanout_outcomes (with_finish_time E finish) self req
  = @fanout_outcomes E self req.
Proof.
  unfold fanout_outcomes, _make_single_request.
  apply list_fmap_ext. intros _ i _. by rewrite attempt_loop_finish_time.
Qed.

End Timing.

(** C10: [gather] returns one outcome per fan-out task, in task order; the
    list of successes is the sub-list of the values among these outcomes, in
    processor-index order; the successful processor of smallest index comes
    first in it, and is what the decision step falls back to; and none of
    this depends on when the tasks complete. *)
Theorem fanout_successes_in_task_order (E : Env) (self : ParallelLLM)
    (model : string) (messages : list (gmap string string))
    (response_format : pyclass) (pass_reasoning : bool)
    (kwargs : gmap string pyval) :
  let req :=
    fanout_request model messages response_format pass_reasoning kwargs in
  let tasks :=
    (λ i, _make_single_request self (Processor i) req)
      <$> seq 0 (num_processors (config self)) in
  let outcomes := result <$> tasks in
  let fanout :=
    result (_process_parallel_requests self model messages response_format
                                       pass_reasoning kwargs) in
  result (gather tasks) = Returned outcomes ∧
  length outcomes = num_processors (config self) ∧
  (∀ responses, fanout = Returned responses → responses = successes outcomes) ∧
  (∀ i v,
     outcomes !! i = Some (Returned v) →
     (∀ j o, j < i → outcomes !! j = Some o → is_Raised o = true) →
     ∃ rest,
       fanout = Returned (v :: rest) ∧
       (is_Raised (result (synthesis_call self (v :: rest) response_format
                                          messages)) = true →
        result (_make_decision self (v :: rest) response_format messages)
        = Returned v)) ∧
  (∀ finish,
     result (@_process_parallel_requests (with_finish_time E finish) self
               model messages response_format pass_reasoning kwargs)
     = fanout).
Proof.
  cbv zeta.
  rewrite <-list_fmap_compose.
  change (result ∘ _ <$> _) with
    (fanout_outcomes self
       (fanout_request model messages response_format pass_reasoning kwargs)).
  set (outcomes := fanout_outcomes self _).
  pose proof (process_parallel_requests_result self model messages
                response_format pass_reasoning kwargs) as Hfanout.
  cbv zeta in Hfanout. fold outcomes in Hfanout.
  split; [|split; [|split; [|split]]].
  - cbn [gather result snd]. rewrite settle_task_order.
    by rewrite <-list_fmap_compose.
  - apply fanout_outcomes_length.
  - intros responses. rewrite Hfanout.
    destruct (successes outcomes); [done|]. by intros [= <-].
  - intros i v Hi Hbefore.
    destruct (successes_first outcomes i v Hi Hbefore) as [rest Hrest].
    exists rest. rewrite Hfanout, Hrest. split; [done|].
    intros Hfail. rewrite make_decision_cons. destruct rest; [done|].
    by destruct (result (synthesis_call _ _ _ _)).
  - intros finish. rewrite Hfanout.
    rewrite (process_parallel_requests_result
               (H := with_finish_time E finish)).
    cbv zeta. by rewrite fanout_outcomes_finish_time.
Qed.

Lemma fanout_successes_in_task_order_witness :
  let self := llm 3 2 in
  let req := fanout_request "gpt-4o-mini" question Answer false ∅ in
  let outcomes :=
    result <$> ((λ i, @_make_single_request flaky self (Processor i) req)
                  <$> seq 0 (num_processors (config self))) in
  let v := parsed_for req "answer 1" in
  @completion_order flaky 3 = [2; 1; 0] ∧
  outcomes !! 1 = Some (Returned v) ∧
  (∀ j o, j < 1 → outcomes !! j = Some o → is_Raised o = true) ∧
  ∃ rest,
    result (@_process_parallel_requests flaky self "gpt-4o-mini" question
              Answer false ∅) = Returned (v :: rest) ∧
    (is_Raised (result (@synthesis_call flaky self (v :: rest) Answer
                          question)) = true →
     result (@_make_decision flaky self (v :: rest) Answer question)
     = Returned v).
Proof.
  cbv zeta.
  assert (∀ j o, j < 1 →
            (result <$> ((λ i, @_make_single_request flaky (llm 3 2)
                                 (Processor i)
                                 (fanout_request "gpt-4o-mini" question Answer
                                                 false ∅))
                           <$> seq 0 (num_processors (config (llm 3 2)))))
              !! j = Some o → is_Raised o = true) as Hbefore.
  { intros j o Hj. assert (j = 0) as -> by lia. by intros [= <-]. }
  split; [reflexivity|]. split; [reflexivity|]. split; [exact Hbefore|].
  exact (proj1 (proj2 (proj2 (proj2
    (fanout_successes_in_task_order flaky (llm 3 2) "gpt-4o-mini" question
       Answer false ∅)))) 1 _ eq_refl Hbefore).
Defined.

(** ** Input checks *)

(** The four checks of lines 259-266, when the format is [None] or falsy,
    or is a class: [ValidationError], before anything is sent. *)
Lemma invalid_input_raises_validation_error `{Env} (self : ParallelLLM)
    model messages response_format pass_reasoning kwargs :
  model = "" ∨ messages = [] ∨ format_truthy response_format = false ∨
  (∃ c, response_format = FmtClass c ∧ issubclass c BaseModel = false) →
  ∃ msg, parse self model messages response_format pass_reasoning kwargs
         = ([], Raised (ValidationError msg)).
Proof.
  intros Hbad. unfold parse, _parse_internal.
  destruct (decide (model = "")) as [->|Hmodel]; [by eexists|].
  rewrite (bool_decide_eq_false_2 (model = "")) by done.
  destruct (decide (messages = [])) as [->|Hmessages]; [by eexists|].
  rewrite (bool_decide_eq_false_2 (messages = [])) by done.
  destruct (format_truthy response_format) eqn:Htruthy; [|by eexists].
  destruct Hbad as [?|[?|[?|(c & -> & Hc)]]]; [done..|].
  cbn [negb]. rewrite Hc. by eexists.
Qed.

(** C9 fails on the code for a format that is not a class: with the dict
    [{"type": "json_object"}] as [response_format], the TypeError of
    [issubclass] is caught by the last handler of [_parse_internal], and
    [parse] raises [ProcessingError], not [ValidationError] (still before
    any provider call). *)
Theorem non_class_response_format_raises_processing_error `{Env}
    (self : ParallelLLM) :
  parse self "gpt-4o-mini" question
        (FmtObject (PyDict [("type", PyStr "json_object")])) false ∅
  = ([], Raised (ProcessingError
                   "Unexpected error: issubclass() arg 1 must be a class"
                   None)).
Proof. reflexivity. Qed.

(** ** Reasoning-augmented responses *)

Section Formats.
Context `{Env} (self : ParallelLLM).

Lemma retries_from_uses t req k more fanout_format decision_format :
  uses_format fanout_format decision_format (Call t 0 req) →
  Forall (uses_format fanout_format decision_format)
         (retries_from t req k more).
Proof.
  intros Hreq. revert k.
  induction more as [|more IH]; intros k; cbn; [done|].
  constructor; [by destruct t|]. constructor; [by destruct t|]. apply IH.
Qed.

Lemma single_request_uses t req fanout_format decision_format :
  uses_format fanout_format decision_format (Call t 0 req) →
  Forall (uses_format fanout_format decision_format)
         (trace (_make_single_request self t req)).
Proof.
  intros Hreq. rewrite single_request_trace. cbn.
  constructor; [done|]. by apply retries_from_uses.
Qed.

Lemma context_lines_trace messages : trace (context_lines messages) = [].
Proof.
  induction messages as [|msg messages IH]; [done|].
  cbn [context_lines]. unfold getitem.
  destruct (msg !! "role"); [|done].
  destruct (msg !! "content"); [|done].
  rewrite !bind_ret, trace_bind, IH.
  by destruct (result (context_lines messages)).
Qed.

Lemma make_decision_uses responses fmt messages fanout_format :
  Forall (uses_format fanout_format fmt)
         (trace (_make_decision self responses fmt messages)).
Proof.
  assert (Forall (uses_format fanout_format fmt)
                 (trace (synthesis_call self responses fmt messages)))
    as Hsynthesis.
  { unfold synthesis_call. rewrite trace_bind, context_lines_trace.
    destruct (result (context_lines messages)) as [lines|e]; [|done].
    cbn [app]. rewrite trace_bind.
    destruct (result (_make_single_request _ _ _)); cbn;
      rewrite ?app_nil_r; by apply single_request_uses. }
  unfold _make_decision. rewrite trace_try_except.
  destruct responses as [|r0 [|r1 rest]]; cbn [length bool_decide]; try done.
  - change (bool_decide (0 = 1)) with false. cbv iota.
    destruct (result (synthesis_call _ _ _ _)); [done|].
    cbn. by rewrite app_nil_r.
  - rewrite bool_decide_eq_false_2 by (cbn; lia).
    destruct (result (synthesis_call _ _ _ _)); [done|].
    cbn. by rewrite app_nil_r.
Qed.

Lemma process_parallel_requests_uses model messages fmt
    (pass_reasoning : bool) kwargs decision_format :
  Forall (uses_format
            (if pass_reasoning then _create_reasoning_format fmt else fmt)
            decision_format)
         (trace (_process_parallel_requests self model messages fmt
                                            pass_reasoning kwargs)).
Proof.
  assert (Forall (uses_format
            (if pass_reasoning then _create_reasoning_format fmt else fmt)
            decision_format)
            (trace (gather ((λ i, _make_single_request self (Processor i)
                                    (fanout_request model messages fmt
                                                    pass_reasoning kwargs))
                              <$> seq 0 (num_processors (config self))))))
    as Hgather.
  { cbn [gather trace fst]. apply Forall_concat, Forall_fmap, Forall_fmap.
    apply Forall_forall. intros i _. by apply single_request_uses. }
  unfold _process_parallel_requests.
  rewrite trace_try_except, result_bind, trace_bind.
  cbn [gather result snd]. cbn [gather result snd] in Hgather.
  destruct (collect _ _ _) as [[|r0 rest] failed_count]; cbn;
    by rewrite ?app_nil_r.
Qed.

(** With [pass_reasoning] every fan-out request asks for the derived class,
    which declares the field [reasoning]; the decision maker is asked for
    the caller's own class. *)
Lemma parse_request_formats model messages fmt kwargs :
  valid_inputs model messages fmt →
  declares_field (_create_reasoning_format fmt) "reasoning" = true ∧
  Forall (uses_format (_create_reasoning_format fmt) fmt)
         (trace (parse self model messages (FmtClass fmt) true kwargs)).
Proof.
  intros Hvalid. split.
  { apply reasoning_format_declares_reasoning. }
  rewrite parse_steps by done. unfold steps. rewrite trace_bind.
  pose proof (process_parallel_requests_uses model messages fmt true kwargs
                fmt) as Hfanout.
  destruct (result (_process_parallel_requests _ _ _ _ _ _)) as [rs|e];
    [|done].
  apply Forall_app. split; [done|].
  rewrite trace_bind.
  pose proof (make_decision_uses rs fmt messages
                (_create_reasoning_format fmt)) as Hdecision.
  destruct (result (_make_decision _ _ _ _)) as [final|e]; [|done].
  by rewrite validate_trace, app_nil_r.
Qed.

End Formats.

(** C3 fails on the code when the decision step does not synthesize: with
    one processor and [pass_reasoning], the fan-out request asks for the
    reasoning-augmented class (as C3 says), the single response is returned
    by the short-circuit of [_make_decision], passes [isinstance] because
    its class derives from the caller's, and reaches the caller with its
    [reasoning] field. *)
Theorem single_reasoning_response_keeps_reasoning :
  let final :=
    Instance (_create_reasoning_format Answer)
             [("answer", PyStr "42"); ("reasoning", PyStr "42")] in
  declares_field Answer "reasoning" = false ∧
  Forall (uses_format (_create_reasoning_format Answer) Answer)
         (trace (@parse well_behaved (llm 1 2) "gpt-4o-mini" question
                        (FmtClass Answer) true ∅)) ∧
  result (@parse well_behaved (llm 1 2) "gpt-4o-mini" question
                 (FmtClass Answer) true ∅) = Returned final ∧
  contains_field final "reasoning" = true.
Proof.
  cbv zeta. split; [reflexivity|]. split; [|split; reflexivity].
  apply parse_request_formats.
  unfold valid_inputs, question. by repeat split.
Qed.

(** ** Scenarios of the decision step *)

(** C7 as stated fails: on an empty candidate list the decision step calls
    the provider; when that call succeeds it returns the answer and raises
    nothing, and only when every attempt fails does it raise
    [DecisionMakerError]. *)
Lemma empty_candidates_call_the_provider :
  (calls (trace (@_make_decision well_behaved (llm 3 2) [] Answer question))
     = 1 ∧
   result (@_make_decision well_behaved (llm 3 2) [] Answer question)
     = Returned (Instance Answer [("answer", PyStr "42")])) ∧
  (calls (trace (@_make_decision always_timeout (llm 3 2) [] Answer question))
     = 3 ∧
   result (@_make_decision always_timeout (llm 3 2) [] Answer question)
     = Raised (DecisionMakerError
                 "Decision maker failed and no fallback available: Request timed out after 3 attempts")).
Proof. repeat split; reflexivity. Qed.

(** X14: at the level of the pipeline, when a single success survives the
    fan-out, [parse] performs the calls of the fan-out and nothing more. *)
Lemma single_success_no_decision_call `{Env} (self : ParallelLLM)
    model messages fmt pass_reasoning kwargs v :
  valid_inputs model messages fmt →
  successes (fanout_outcomes self
               (fanout_request model messages fmt pass_reasoning kwargs))
    = [v] →
  trace (parse self model messages (FmtClass fmt) pass_reasoning kwargs)
    = trace (_process_parallel_requests self model messages fmt
                                        pass_reasoning kwargs) ∧
  result (parse self model messages (FmtClass fmt) pass_reasoning kwargs)
    = result (validate_final_response v fmt).
Proof.
  intros Hvalid Hone. rewrite parse_steps by done. unfold steps.
  rewrite trace_bind, result_bind, process_parallel_requests_result.
  cbv zeta. rewrite Hone.
  rewrite trace_bind, result_bind.
  change (_make_decision self [v] fmt messages) with (@ret pyval v).
  cbn [ret trace result fst snd app]. by rewrite validate_trace, app_nil_r.
Qed.

(** X13: the fallback at the level of the pipeline: when the synthesis call fails,
    [parse] ends as the validation of the first fan-out success does, and
    returns that very value when it is an instance of [response_format]. *)
Lemma parse_falls_back_to_first `{Env} (self : ParallelLLM)
    model messages fmt pass_reasoning kwargs r0 rest :
  valid_inputs model messages fmt →
  successes (fanout_outcomes self
               (fanout_request model messages fmt pass_reasoning kwargs))
    = r0 :: rest →
  is_Raised (result (synthesis_call self (r0 :: rest) fmt messages)) = true →
  result (parse self model messages (FmtClass fmt) pass_reasoning kwargs)
    = result (validate_final_response r0 fmt) ∧
  (isinstance r0 fmt = true →
   result (parse self model messages (FmtClass fmt) pass_reasoning kwargs)
     = Returned r0).
Proof.
  intros Hvalid Hs Hfail.
  assert (result (parse self model messages (FmtClass fmt) pass_reasoning
                        kwargs)
          = result (validate_final_response r0 fmt)) as Hparse.
  { rewrite parse_steps by done. unfold steps.
    rewrite result_bind, process_parallel_requests_result. cbv zeta.
    rewrite Hs, result_bind, make_decision_cons.
    destruct rest; [done|].
    by destruct (result (synthesis_call _ _ _ _)). }
  split; [done|]. intros Hr0. by rewrite Hparse, validate_instance.
Qed.

(** The two other paths of a run with [pass_reasoning], three processors of
    which two succeed: an answer synthesized by the decision maker has no
    [reasoning] field; the fallback after a failed decision call has one. *)
Example synthesized_answer_has_no_reasoning :
  let final := Instance Answer [("answer", PyStr "42")] in
  result (@parse flaky_fanout (llm 3 2) "gpt-4o-mini" question
                 (FmtClass Answer) true ∅) = Returned final ∧
  contains_field final "reasoning" = false.
Proof. split; reflexivity. Qed.

Example fallback_answer_keeps_reasoning :
  let final :=
    Instance (_create_reasoning_format Answer)
             [("answer", PyStr "answer 1"); ("reasoning", PyStr "answer 1")] in
  result (@parse flaky (llm 3 2) "gpt-4o-mini" question
                 (FmtClass Answer) true ∅) = Returned final ∧
  contains_field final "reasoning" = true.
Proof. split; reflexivity. Qed.

(** * Further properties of the code *)

(** ** The single-call executor: which attempt decides *)

Lemma total_sleep_retries_from t req k more :
  total_sleep (retries_from t req k more) + 2 ^ k = 2 ^ (k + more).
Proof.
  revert k. induction more as [|more IH]; intros k; cbn [retries_from total_sleep].
  - by rewrite Nat.add_0_r.
  - specialize (IH (S k)). rewrite Nat.pow_succ_r' in IH.
    replace (k + S more) with (S k + more) by lia. lia.
Qed.

Lemma total_sleep_retry_trace t req n :
  total_sleep (retry_trace t req (S n)) = 2 ^ n - 1.
Proof.
  cbn [retry_trace total_sleep].
  pose proof (total_sleep_retries_from t req 0 n) as Hsum.
  cbn in Hsum. lia.
Qed.

Section Deciding.
Context `{Env} (self : ParallelLLM) (t : task) (req : request).

Lemma leading_failures_first_success a b k :
  k ≤ b →
  (∀ j, j < k → failed (openai_client t (a + j) req) = true) →
  (k < b → failed (openai_client t (a + k) req) = false) →
  leading_failures t req a b = k.
Proof.
  revert a k. induction b as [|b IH]; intros a k Hk Hfail Hstop.
  { cbn. lia. }
  cbn [leading_failures]. destruct k as [|k].
  - rewrite Nat.add_0_r in Hstop. by rewrite Hstop by lia.
  - pose proof (Hfail 0 ltac:(lia)) as H0. rewrite Nat.add_0_r in H0.
    rewrite H0. f_equal. apply IH; [lia|..].
    + intros j Hj. replace (S a + j) with (a + S j) by lia.
      apply Hfail. lia.
    + intros Hlt. replace (S a + k) with (a + S k) by lia.
      apply Hstop. lia.
Qed.

Lemma attempt_loop_first_success a b k v :
  a + b = max_retries (config self) → k ≤ b →
  (∀ j, j < k → failed (openai_client t (a + j) req) = true) →
  openai_client t (a + k) req = Completed v →
  result (attempt_loop self t req (seq a (S b))) = Returned v.
Proof.
  revert a b. induction k as [|k IH]; intros a b Hab Hk Hfail Hv.
  - rewrite Nat.add_0_r in Hv. cbn [seq attempt_loop].
    by rewrite result_emit, Hv.
  - destruct b as [|b]; [lia|].
    pose proof (Hfail 0 ltac:(lia)) as H0. rewrite Nat.add_0_r in H0.
    assert (result (attempt_loop self t req (seq (S a) (S b))) = Returned v)
      as Hrest.
    { apply IH; [lia|lia|..].
      - intros j Hj. replace (S a + j) with (a + S j) by lia.
        apply Hfail. lia.
      - by replace (S a + k) with (a + S k) by lia. }
    cbn [seq attempt_loop]. rewrite result_emit.
    rewrite bool_decide_eq_false_2 by lia.
    destruct (openai_client t a req); [done|rewrite result_emit; exact Hrest ..].
Qed.

Lemma attempt_loop_exhausted a b :
  a + b = max_retries (config self) →
  (∀ j, j ≤ b → failed (openai_client t (a + j) req) = true) →
  result (attempt_loop self t req (seq a (S b)))
  = result (attempt_loop self t req [max_retries (config self)]).
Proof.
  revert a. induction b as [|b IH]; intros a Hab Hfail.
  - by replace a with (max_retries (config self)) by lia.
  - pose proof (Hfail 0 ltac:(lia)) as H0. rewrite Nat.add_0_r in H0.
    assert (result (attempt_loop self t req (seq (S a) (S b)))
            = result (attempt_loop self t req [max_retries (config self)]))
      as Hrest.
    { apply IH; [lia|]. intros j Hj.
      replace (S a + j) with (a + S j) by lia. apply Hfail. lia. }
    cbn [seq attempt_loop]. rewrite result_emit.
    rewrite bool_decide_eq_false_2 by lia.
    destruct (openai_client t a req); [done|rewrite result_emit; exact Hrest ..].
Qed.

End Deciding.

(** X1: the first attempt that completes decides.  If attempt [k], within
    the budget, completes with [v] after [k] failed attempts, the executor
    returns [v], has called the provider [k + 1] times and has slept
    [2 ^ k - 1] seconds in all. *)
Theorem first_completed_attempt_wins `{Env} (self : ParallelLLM)
    (t : task) (req : request) (k : nat) (v : pyval) :
  k ≤ max_retries (config self) →
  (∀ j, j < k → failed (openai_client t j req) = true) →
  openai_client t k req = Completed v →
  result (_make_single_request self t req) = Returned v ∧
  calls (trace (_make_single_request self t req)) = k + 1 ∧
  total_sleep (trace (_make_single_request self t req)) = 2 ^ k - 1.
Proof.
  intros Hk Hfail Hv.
  assert (leading_failures t req 0 (max_retries (config self)) = k) as Hlead.
  { apply leading_failures_first_success; [done|done|].
    intros _. cbn. by rewrite Hv. }
  rewrite single_request_trace, calls_retry_trace, total_sleep_retry_trace, Hlead.
  split; [|split; [lia|done]].
  unfold _make_single_request. rewrite Nat.add_1_r.
  by apply (attempt_loop_first_success self t req 0 _ k).
Qed.

Lemma first_completed_attempt_wins_witness :
  let req := fanout_request "gpt-4o-mini" question Answer false ∅ in
  1 ≤ max_retries (config (llm 3 2)) ∧
  (∀ j, j < 1 → failed (@openai_client flaky (Processor 1) j req) = true) ∧
  @openai_client flaky (Processor 1) 1 req
    = Completed (parsed_for req "answer 1") ∧
  result (@_make_single_request flaky (llm 3 2) (Processor 1) req)
    = Returned (parsed_for req "answer 1") ∧
  calls (trace (@_make_single_request flaky (llm 3 2) (Processor 1) req)) = 2 ∧
  total_sleep (trace (@_make_single_request flaky (llm 3 2) (Processor 1) req))
    = 1.
Proof.
  cbv zeta.
  assert (1 ≤ max_retries (config (llm 3 2))) as Hk by (cbn; lia).
  assert (∀ j, j < 1 →
            failed (@openai_client flaky (Processor 1) j
                      (fanout_request "gpt-4o-mini" question Answer false ∅))
            = true) as Hfail.
  { intros j Hj. assert (j = 0) as -> by lia. reflexivity. }
  split; [exact Hk|]. split; [exact Hfail|]. split; [reflexivity|].
  exact (@first_completed_attempt_wins flaky (llm 3 2) (Processor 1) _ 1 _
           Hk Hfail eq_refl).
Defined.

(** X2: when every attempt of the budget fails, the executor has called the
    provider [max_retries + 1] times, has slept [2 ^ max_retries - 1]
    seconds, and raises an error that only the last attempt determines: the
    timed-out [ProcessingError] with the attempt count, what
    [handle_openai_error] makes of the rate-limit or API error, or the
    unexpected-error [ProcessingError]. *)
Theorem exhausted_retries_raise_last_error `{Env} (self : ParallelLLM)
    (t : task) (req : request) :
  (∀ j, j ≤ max_retries (config self) →
        failed (openai_client t j req) = true) →
  let run := _make_single_request self t req in
  let last := openai_client t (max_retries (config self)) req in
  calls (trace run) = max_retries (config self) + 1 ∧
  total_sleep (trace run) = 2 ^ max_retries (config self) - 1 ∧
  (last = TimeoutError →
   result run = Raised (ProcessingError
                          ("Request timed out after "
                             ++ nat_str (max_retries (config self) + 1)
                             ++ " attempts") None)) ∧
  (∀ msg, last = RateLimitError msg →
          result run = Raised (handle_openai_error (RateLimitError msg))) ∧
  (∀ msg, last = APIError msg →
          result run = Raised (handle_openai_error (APIError msg))) ∧
  (∀ e, last = OtherException e →
        result run = Raised (ProcessingError
                               ("Unexpected error: " ++ exn_str e) None)).
Proof.
  intros Hfail. cbv zeta.
  assert (leading_failures t req 0 (max_retries (config self))
          = max_retries (config self)) as Hlead.
  { apply leading_failures_first_success; [done| |lia].
    intros j Hj. apply Hfail. lia. }
  assert (result (_make_single_request self t req)
          = result (attempt_loop self t req [max_retries (config self)]))
    as Hlast.
  { unfold _make_single_request. rewrite Nat.add_1_r.
    by apply attempt_loop_exhausted. }
  rewrite single_request_trace, calls_retry_trace, total_sleep_retry_trace,
    Hlead, Hlast.
  cbn [attempt_loop]. rewrite result_emit, bool_decide_eq_true_2 by done.
  split; [lia|]. split; [done|].
  repeat split; [intros ->|intros msg ->|intros msg ->|intros e ->]; done.
Qed.

Lemma exhausted_retries_raise_last_error_witness :
  let req := fanout_request "gpt-4o-mini" question Answer false ∅ in
  let run := @_make_single_request always_timeout (llm 5 2) (Processor 0) req in
  (∀ j, j ≤ 2 → failed (@openai_client always_timeout (Processor 0) j req)
                = true) ∧
  calls (trace run) = 3 ∧ total_sleep (trace run) = 3 ∧
  result run
  = Raised (ProcessingError "Request timed out after 3 attempts" None).
Proof.
  cbv zeta.
  assert (∀ j, j ≤ max_retries (config (llm 5 2)) →
            failed (@openai_client always_timeout (Processor 0) j
                      (fanout_request "gpt-4o-mini" question Answer false ∅))
            = true) as Hfail by (intros j _; reflexivity).
  pose proof (@exhausted_retries_raise_last_error always_timeout (llm 5 2)
                (Processor 0) _ Hfail) as (Hcalls & Hsleep & Htimeout & _).
  split; [exact Hfail|]. split; [exact Hcalls|]. split; [exact Hsleep|].
  exact (Htimeout eq_refl).
Defined.

(** ** The fan-out: counts, requests, budget *)

Lemma calls_app tr1 tr2 : calls (tr1 ++ tr2)%list = calls tr1 + calls tr2.
Proof. unfold calls. by rewrite List.filter_app, length_app. Qed.

Lemma retries_from_fanout_event self req i k more :
  i < num_processors (config self) →
  k + more ≤ max_retries (config self) →
  Forall (fanout_event self req) (retries_from (Processor i) req k more).
Proof.
  intros Hi. revert k. induction more as [|more IH]; intros k Hk; cbn; [done|].
  constructor; [done|]. constructor; [cbn; split; [done|split; [lia|done]]|].
  apply IH. lia.
Qed.

Section FanoutTrace.
Context `{Env} (self : ParallelLLM).
Context (model : string) (messages : list (gmap string string)).
Context (fmt : pyclass) (pass_reasoning : bool) (kwargs : gmap string pyval).

Lemma process_parallel_requests_trace :
  trace (_process_parallel_requests self model messages fmt
                                    pass_reasoning kwargs)
  = concat ((λ i, trace (_make_single_request self (Processor i)
                           (fanout_request model messages fmt
                                           pass_reasoning kwargs)))
              <$> seq 0 (num_processors (config self))).
Proof.
  unfold _process_parallel_requests.
  rewrite trace_try_except, result_bind, trace_bind.
  cbn [gather result trace fst snd].
  destruct (collect _ _ _) as [[|r0 rest] failed_count]; cbn;
    by rewrite ?app_nil_r, <-list_fmap_compose.
Qed.

Lemma single_request_fanout_event i :
  i < num_processors (config self) →
  Forall (fanout_event self
            (fanout_request model messages fmt pass_reasoning kwargs))
         (trace (_make_single_request self (Processor i)
                   (fanout_request model messages fmt pass_reasoning kwargs))).
Proof.
  intros Hi. rewrite single_request_trace. cbn [retry_trace].
  constructor; [cbn; split; [done|split; [lia|done]]|].
  apply retries_from_fanout_event; [done|].
  pose proof (leading_failures_le (Processor i)
                (fanout_request model messages fmt pass_reasoning kwargs)
                0 (max_retries (config self))).
  lia.
Qed.

Lemma calls_concat_tasks (f : nat → list event) lo hi start n :
  (∀ i, lo ≤ calls (f i) ≤ hi) →
  n * lo ≤ calls (concat (f <$> seq start n)) ≤ n * hi.
Proof.
  intros Hf. revert start. induction n as [|n IH]; intros start.
  { cbn. lia. }
  cbn [seq]. rewrite fmap_cons. cbn [concat]. rewrite calls_app. specialize (IH (S start)). specialize (Hf start). lia.
Qed.

Lemma fanout_calls_bounds :
  num_processors (config self)
  ≤ calls (trace (_process_parallel_requests self model messages fmt
                                             pass_reasoning kwargs))
  ≤ num_processors (config self) * (max_retries (config self) + 1).
Proof.
  rewrite process_parallel_requests_trace.
  pose proof (calls_concat_tasks
                (λ i, trace (_make_single_request self (Processor i)
                               (fanout_request model messages fmt
                                               pass_reasoning kwargs)))
                1 (max_retries (config self) + 1)
                0 (num_processors (config self))) as Hbounds.
  rewrite Nat.mul_1_r in Hbounds. apply Hbounds.
  intros i. rewrite single_request_trace, calls_retry_trace.
  pose proof (leading_failures_le (Processor i)
                (fanout_request model messages fmt pass_reasoning kwargs)
                0 (max_retries (config self))).
  lia.
Qed.

End FanoutTrace.

(** X3: the all-processors-failed error is raised by [parse] only when
    every fan-out processor failed, and the count it carries is then the
    number of processors, never a partial count. *)
Theorem all_failed_error_only_when_all_fail `{Env} (self : ParallelLLM)
    (model : string) (messages : list (gmap string string))
    (response_format : pyclass) (pass_reasoning : bool)
    (kwargs : gmap string pyval) (n : nat) :
  valid_inputs model messages response_format →
  result (parse self model messages (FmtClass response_format)
                pass_reasoning kwargs)
  = Raised (ProcessingError "All parallel processors failed" (Some n)) →
  n = num_processors (config self) ∧
  ∀ i, i < num_processors (config self) →
       is_Raised (result (_make_single_request self (Processor i)
                            (fanout_request model messages response_format
                                            pass_reasoning kwargs))) = true.
Proof.
  intros Hvalid. rewrite parse_steps by done. unfold steps.
  rewrite result_bind, process_parallel_requests_result. cbv zeta.
  set (outcomes := fanout_outcomes self _).
  pose proof (successes_failures_length outcomes) as Hlen.
  unfold outcomes in Hlen at 3. rewrite fanout_outcomes_length in Hlen.
  destruct (successes outcomes) as [|r0 rest] eqn:Hs.
  - intros [= <-]. cbn in Hlen. split; [done|].
    intros i Hi. apply (proj1 (successes_nil_iff outcomes) Hs).
    apply list_elem_of_lookup. exists i.
    unfold outcomes. by rewrite fanout_outcomes_lookup.
  - rewrite result_bind, make_decision_cons.
    intros Hraised. exfalso.
    assert (∀ v, result (validate_final_response v response_format)
                 ≠ Raised (all_processors_failed n)) as Hvalidate.
    { intros v Hv. by apply validate_raises in Hv as [msg ?]. }
    destruct rest as [|r1 rest]; [by eapply Hvalidate|].
    destruct (result (synthesis_call _ _ _ _)); by eapply Hvalidate.
Qed.

Lemma all_failed_error_only_when_all_fail_witness :
  valid_inputs "gpt-4o-mini" question Answer ∧
  result (@parse always_timeout (llm 5 2) "gpt-4o-mini" question
                 (FmtClass Answer) false ∅)
  = Raised (ProcessingError "All parallel processors failed" (Some 5)) ∧
  5 = num_processors (config (llm 5 2)) ∧
  ∀ i, i < num_processors (config (llm 5 2)) →
       is_Raised (result (@_make_single_request always_timeout (llm 5 2)
                            (Processor i)
                            (fanout_request "gpt-4o-mini" question Answer
                                            false ∅))) = true.
Proof.
  assert (valid_inputs "gpt-4o-mini" question Answer) as Hvalid.
  { unfold valid_inputs, question. by repeat split. }
  split; [exact Hvalid|]. split; [reflexivity|].
  exact (@all_failed_error_only_when_all_fail always_timeout (llm 5 2)
           "gpt-4o-mini" question Answer false ∅ 5 Hvalid eq_refl).
Defined.

(** X4: when the fan-out returns, the list it returns is not empty, has at
    most [num_processors] elements, and together with the failures it
    counted accounts for every processor. *)
Theorem fanout_accounts_for_every_processor `{Env} (self : ParallelLLM)
    (model : string) (messages : list (gmap string string))
    (response_format : pyclass) (pass_reasoning : bool)
    (kwargs : gmap string pyval) (responses : list pyval) :
  result (_process_parallel_requests self model messages response_format
                                     pass_reasoning kwargs)
  = Returned responses →
  1 ≤ length responses ≤ num_processors (config self) ∧
  length responses
  + failures (fanout_outcomes self
                (fanout_request model messages response_format
                                pass_reasoning kwargs))
  = num_processors (config self).
Proof.
  rewrite process_parallel_requests_result. cbv zeta.
  set (outcomes := fanout_outcomes self _).
  pose proof (successes_failures_length outcomes) as Hlen.
  unfold outcomes in Hlen at 3. rewrite fanout_outcomes_length in Hlen.
  destruct (successes outcomes) as [|r0 rest]; [done|].
  intros [= <-]. cbn [length] in *. lia.
Qed.

Lemma fanout_accounts_for_every_processor_witness :
  let req := fanout_request "gpt-4o-mini" question Answer false ∅ in
  let responses := [parsed_for req "answer 1"; parsed_for req "answer 2"] in
  result (@_process_parallel_requests flaky (llm 3 2) "gpt-4o-mini" question
            Answer false ∅) = Returned responses ∧
  1 ≤ length responses ≤ num_processors (config (llm 3 2)) ∧
  length responses + failures (@fanout_outcomes flaky (llm 3 2) req)
  = num_processors (config (llm 3 2)).
Proof.
  cbv zeta. split; [reflexivity|].
  exact (@fanout_accounts_for_every_processor flaky (llm 3 2) "gpt-4o-mini"
           question Answer false ∅ _ eq_refl).
Defined.


(** ** The decision step: its request, its budget, a malformed conversation *)

Lemma retries_from_decision_event self fmt req k more :
  decision_event self fmt (Call DecisionMaker 0 req) →
  k + more ≤ max_retries (config self) →
  Forall (decision_event self fmt) (retries_from DecisionMaker req k more).
Proof.
  intros (_ & Hreq). revert k.
  induction more as [|more IH]; intros k Hk; cbn [retries_from]; [done|].
  constructor; [done|]. constructor; [split; [lia|done]|]. apply IH. lia.
Qed.

Section DecisionTrace.
Context `{Env} (self : ParallelLLM).
Context (fmt : pyclass) (messages : list (gmap string string)).

(** The decision step calls nobody, or is one run of the executor on a
    decision request. *)
Lemma make_decision_trace responses :
  trace (_make_decision self responses fmt messages) = [] ∨
  ∃ original_context all_responses,
    trace (_make_decision self responses fmt messages)
    = trace (_make_single_request self DecisionMaker
               (decision_request self fmt original_context all_responses)).
Proof.
  assert (trace (synthesis_call self responses fmt messages) = [] ∨
          ∃ original_context all_responses,
            trace (synthesis_call self responses fmt messages)
            = trace (_make_single_request self DecisionMaker
                       (decision_request self fmt original_context
                                         all_responses))) as Hsynthesis.
  { unfold synthesis_call. rewrite trace_bind, context_lines_trace.
    destruct (result (context_lines messages)) as [lines|e]; [|by left].
    right. eexists _, _. cbn [app]. rewrite trace_bind.
    destruct (result (_make_single_request _ _ _)); cbn;
      by rewrite ?app_nil_r. }
  unfold _make_decision. rewrite trace_try_except.
  destruct responses as [|r0 [|r1 rest]].
  - change (bool_decide (length (@nil pyval) = 1)) with false. cbv iota.
    destruct (result (synthesis_call _ _ _ _)); [done|].
    cbn [raise trace fst]. by rewrite app_nil_r.
  - by left.
  - rewrite bool_decide_eq_false_2 by (cbn; lia).
    destruct (result (synthesis_call _ _ _ _)); [done|].
    cbn. by rewrite app_nil_r.
Qed.

Lemma single_request_decision_event original_context all_responses :
  Forall (decision_event self fmt)
         (trace (_make_single_request self DecisionMaker
                   (decision_request self fmt original_context
                                     all_responses))).
Proof.
  assert (decision_event self fmt
            (Call DecisionMaker 0
               (decision_request self fmt original_context all_responses)))
    as Hreq.
  { cbn. split; [lia|]. repeat split. by eexists. }
  rewrite single_request_trace. cbn [retry_trace].
  constructor; [done|].
  apply retries_from_decision_event; [done|].
  pose proof (leading_failures_le DecisionMaker
                (decision_request self fmt original_context all_responses)
                0 (max_retries (config self))).
  lia.
Qed.

Lemma make_decision_calls responses :
  calls (trace (_make_decision self responses fmt messages))
  ≤ max_retries (config self) + 1.
Proof.
  destruct (make_decision_trace responses) as [->|(ctx & all & ->)].
  { cbn. lia. }
  rewrite single_request_trace, calls_retry_trace.
  pose proof (leading_failures_le DecisionMaker
                (decision_request self fmt ctx all)
                0 (max_retries (config self))).
  lia.
Qed.

Lemma context_lines_lacks_key :
  lacks_key messages →
  ∃ key, (key = "role" ∨ key = "content") ∧
         context_lines messages
         = ([], Raised (OtherError "KeyError" ("'" ++ key ++ "'"))).
Proof.
  clear self fmt.
  induction messages as [|msg rest IH]; intros (bad & Hin & Hbad).
  { by apply elem_of_nil in Hin. }
  cbn [context_lines]. unfold getitem.
  destruct (msg !! "role") as [role|] eqn:Hrole;
    [|exists "role"; split; [by left|done]].
  destruct (msg !! "content") as [content|] eqn:Hcontent;
    [|exists "content"; split; [by right|done]].
  destruct IH as (key & Hkey & Hrest).
  { apply elem_of_cons in Hin as [->|Hin]; [|by exists bad].
    destruct Hbad; congruence. }
  exists key. split; [done|]. by rewrite !bind_ret, Hrest.
Qed.

End DecisionTrace.

(** X6: whatever the provider does, the decision step calls it at most
    [max_retries + 1] times, and only with the decision request: to the
    configured decision-maker model (not the caller's), for the caller's
    own class, with the temperature as only option (the caller's options
    are not forwarded), in a conversation of the configured system prompt
    and one user message.  It never calls on behalf of a fan-out task. *)
Theorem decision_step_request_and_budget `{Env} (self : ParallelLLM)
    (responses : list pyval) (response_format : pyclass)
    (original_messages : list (gmap string string)) :
  let tr :=
    trace (_make_decision self responses response_format original_messages) in
  Forall (decision_event self response_format) tr ∧
  calls tr ≤ max_retries (config self) + 1.
Proof.
  cbv zeta. split; [|apply make_decision_calls].
  destruct (make_decision_trace self response_format original_messages
              responses) as [->|(ctx & all & ->)]; [done|].
  apply single_request_decision_event.
Qed.

(** X7: a conversation with a message that lacks ["role"] or ["content"]
    makes the decision step give up before any provider call: with
    candidates it returns the first one, without candidates it raises
    [DecisionMakerError] naming the missing key. *)
Theorem malformed_conversation_skips_synthesis `{Env} (self : ParallelLLM)
    (response_format : pyclass)
    (original_messages : list (gmap string string)) :
  lacks_key original_messages →
  (∀ r0 rest,
     _make_decision self (r0 :: rest) response_format original_messages
     = ([], Returned r0)) ∧
  ∃ key, (key = "role" ∨ key = "content") ∧
         _make_decision self [] response_format original_messages
         = ([], Raised (DecisionMakerError
                          ("Decision maker failed and no fallback available: '"
                             ++ key ++ "'"))).
Proof.
  intros (key & Hkey & Hlines)%context_lines_lacks_key.
  assert (∀ responses,
            synthesis_call self responses response_format original_messages
            = ([], Raised (OtherError "KeyError" ("'" ++ key ++ "'"))))
    as Hsynthesis.
  { intros responses. unfold synthesis_call. by rewrite Hlines. }
  split.
  - intros r0 [|r1 rest]; [done|].
    unfold _make_decision.
    rewrite bool_decide_eq_false_2 by (cbn; lia). by rewrite Hsynthesis.
  - exists key. split; [done|]. by rewrite make_decision_nil, Hsynthesis.
Qed.

Lemma malformed_conversation_skips_synthesis_witness :
  let a := Instance Answer [("answer", PyStr "41")] in
  let b := Instance Answer [("answer", PyStr "42")] in
  lacks_key headless ∧
  @_make_decision well_behaved (llm 3 2) [a; b] Answer headless
  = ([], Returned a) ∧
  @_make_decision well_behaved (llm 3 2) [] Answer headless
  = ([], Raised (DecisionMakerError
                   "Decision maker failed and no fallback available: 'content'")).
Proof.
  cbv zeta.
  assert (lacks_key headless) as Hlacks.
  { exists {[ "role" := "user" ]}. split; [right; left|by right]. }
  split; [exact Hlacks|].
  split; [|reflexivity].
  exact (proj1 (@malformed_conversation_skips_synthesis well_behaved (llm 3 2)
                  Answer headless Hlacks) _ _).
Defined.

(** ** The pipeline: input checks, budget, errors *)

Section ParseCases.
Context `{Env} (self : ParallelLLM).
Context (model : string) (messages : list (gmap string string)).
Context (pass_reasoning : bool) (kwargs : gmap string pyval).

(** Either the input checks stop [parse] before it does anything, or the
    format is a class and the inputs are valid. *)
Lemma parse_cases response_format :
  (trace (parse self model messages response_format pass_reasoning kwargs) = []
   ∧ ((∃ msg, result (parse self model messages response_format
                             pass_reasoning kwargs)
              = Raised (ValidationError msg))
      ∨ (∃ msg, result (parse self model messages response_format
                               pass_reasoning kwargs)
                = Raised (ProcessingError msg None))))
  ∨ ∃ fmt, response_format = FmtClass fmt ∧ valid_inputs model messages fmt.
Proof.
  unfold parse, _parse_internal.
  destruct (decide (model = "")) as [->|Hmodel]; [left; split; by eauto|].
  rewrite (bool_decide_eq_false_2 (model = "")) by done.
  destruct (decide (messages = [])) as [->|Hmessages];
    [left; split; by eauto|].
  rewrite (bool_decide_eq_false_2 (messages = [])) by done.
  destruct (format_truthy response_format); [|left; split; by eauto].
  destruct response_format as [fmt|v]; [|left; split; by eauto].
  destruct (issubclass fmt BaseModel) eqn:Hfmt; [|left; split; by eauto].
  right. by exists fmt.
Qed.

Lemma steps_trace fmt :
  trace (steps self model messages fmt pass_reasoning kwargs)
  = (trace (_process_parallel_requests self model messages fmt
                                        pass_reasoning kwargs)
     ++ match result (_process_parallel_requests self model messages fmt
                                                 pass_reasoning kwargs) with
        | Returned responses =>
            trace (_make_decision self responses fmt messages)
        | Raised _ => []
        end)%list.
Proof.
  unfold steps. rewrite trace_bind.
  destruct (result (_process_parallel_requests _ _ _ _ _ _)) as [rs|e];
    [|by rewrite app_nil_r].
  f_equal. rewrite trace_bind.
  destruct (result (_make_decision _ _ _ _)); [|done].
  by rewrite validate_trace, app_nil_r.
Qed.

(** After the input checks [parse] raises only the all-processors-failed
    error or the [ValidationError] of the last step. *)
Lemma steps_raises fmt e :
  result (steps self model messages fmt pass_reasoning kwargs) = Raised e →
  (∃ msg, e = ValidationError msg) ∨ (∃ n, e = all_processors_failed n).
Proof.
  unfold steps. rewrite result_bind, process_parallel_requests_result.
  cbv zeta. destruct (successes _) as [|r0 rest];
    [intros [= <-]; right; by eexists|].
  rewrite result_bind, make_decision_cons. intros Hraised. left.
  destruct rest as [|r1 rest]; [by eapply validate_raises|].
  destruct (result (synthesis_call _ _ _ _)); by eapply validate_raises.
Qed.

End ParseCases.

(** X8: one call of [parse] costs at most
    [(num_processors + 1) * (max_retries + 1)] provider calls, whatever the
    inputs and whatever the provider does. *)
Theorem parse_call_budget `{Env} (self : ParallelLLM)
    (model : string) (messages : list (gmap string string))
    (response_format : format_arg) (pass_reasoning : bool)
    (kwargs : gmap string pyval) :
  calls (trace (parse self model messages response_format
                      pass_reasoning kwargs))
  ≤ (num_processors (config self) + 1) * (max_retries (config self) + 1).
Proof.
  destruct (parse_cases self model messages pass_reasoning kwargs
              response_format) as [[-> _]|(fmt & -> & Hvalid)].
  { cbn. lia. }
  rewrite parse_steps by done. rewrite steps_trace, calls_app.
  pose proof (fanout_calls_bounds self model messages fmt pass_reasoning
                kwargs) as [_ Hfanout].
  destruct (result (_process_parallel_requests _ _ _ _ _ _)) as [rs|e].
  - pose proof (make_decision_calls self fmt messages rs). lia.
  - cbn. lia.
Qed.

(** X9: in a run in which every provider call returns or raises an instance
    of [Exception] (the runs described here: no cancellation), [parse]
    raises nothing but [ValidationError] and [ProcessingError]: the errors
    of the processors, of the decision maker and of the rendering are
    absorbed or wrapped, and no [DecisionMakerError] or
    [ConfigurationError] comes out. *)
Theorem parse_raises_validation_or_processing_error `{Env}
    (self : ParallelLLM) (model : string)
    (messages : list (gmap string string)) (response_format : format_arg)
    (pass_reasoning : bool) (kwargs : gmap string pyval) (e : exn) :
  result (parse self model messages response_format pass_reasoning kwargs)
  = Raised e →
  (∃ msg, e = ValidationError msg) ∨
  (∃ msg failed_processors, e = ProcessingError msg failed_processors).
Proof.
  destruct (parse_cases self model messages pass_reasoning kwargs
              response_format)
    as [[_ [[msg ->]|[msg ->]]]|(fmt & -> & Hvalid)].
  - intros [= <-]. left. by eexists.
  - intros [= <-]. right. by eexists _, _.
  - rewrite parse_steps by done.
    intros [?|[n ->]]%steps_raises; [by left|right; by eexists _, _].
Qed.

Lemma parse_raises_validation_or_processing_error_witness :
  result (@parse always_timeout (llm 3 2) "gpt-4o-mini" headless
                 (FmtClass Answer) false ∅)
  = Raised (ProcessingError "All parallel processors failed" (Some 3)) ∧
  ((∃ msg, ProcessingError "All parallel processors failed" (Some 3)
           = ValidationError msg) ∨
   (∃ msg failed_processors,
      ProcessingError "All parallel processors failed" (Some 3)
      = ProcessingError msg failed_processors)).
Proof.
  split; [reflexivity|].
  exact (@parse_raises_validation_or_processing_error always_timeout (llm 3 2)
           "gpt-4o-mini" headless (FmtClass Answer) false ∅ _ eq_refl).
Defined.

(** X10: the input checks, in their order, each with its own message and
    before anything is sent: an empty model name first, then an empty
    conversation, then a format that is [None] or otherwise falsy, then a
    class that does not derive from [BaseModel]. *)
Theorem input_checks_in_order `{Env} (self : ParallelLLM)
    (model : string) (messages : list (gmap string string))
    (response_format : format_arg) (pass_reasoning : bool)
    (kwargs : gmap string pyval) :
  let run := parse self model messages response_format pass_reasoning kwargs in
  (model = "" → run = ([], Raised (ValidationError "Model name is required"))) ∧
  (model ≠ "" → messages = [] →
   run = ([], Raised (ValidationError "Messages are required"))) ∧
  (model ≠ "" → messages ≠ [] → format_truthy response_format = false →
   run = ([], Raised (ValidationError "Response format is required"))) ∧
  (∀ c, model ≠ "" → messages ≠ [] → response_format = FmtClass c →
        issubclass c BaseModel = false →
        run = ([], Raised (ValidationError
                             "Response format must be a Pydantic BaseModel"))).
Proof.
  cbv zeta. unfold parse, _parse_internal. repeat split.
  - by intros ->.
  - intros Hmodel ->. by rewrite bool_decide_eq_false_2.
  - intros Hmodel Hmessages Hfalsy.
    by rewrite !bool_decide_eq_false_2, Hfalsy.
  - intros c Hmodel Hmessages -> Hc.
    rewrite !bool_decide_eq_false_2 by done. cbn [format_truthy negb].
    by rewrite Hc.
Qed.

Lemma input_checks_in_order_witness :
  let dict := Class "dict" PyObject [] in
  @parse well_behaved (llm 3 2) "" [] (FmtObject PyNone) false ∅
  = ([], Raised (ValidationError "Model name is required")) ∧
  @parse well_behaved (llm 3 2) "gpt-4o-mini" [] (FmtObject PyNone) false ∅
  = ([], Raised (ValidationError "Messages are required")) ∧
  @parse well_behaved (llm 3 2) "gpt-4o-mini" question (FmtObject PyNone)
         false ∅
  = ([], Raised (ValidationError "Response format is required")) ∧
  @parse well_behaved (llm 3 2) "gpt-4o-mini" question (FmtClass dict) false ∅
  = ([], Raised (ValidationError
                   "Response format must be a Pydantic BaseModel")).
Proof.
  cbv zeta.
  assert ("gpt-4o-mini" ≠ "") as Hmodel by done.
  assert (question ≠ []) as Hmessages by done.
  split; [|split; [|split]].
  - exact (proj1 (@input_checks_in_order well_behaved (llm 3 2) ""
                    [] (FmtObject PyNone) false ∅) eq_refl).
  - exact (proj1 (proj2 (@input_checks_in_order well_behaved (llm 3 2)
                    "gpt-4o-mini" [] (FmtObject PyNone) false ∅))
             Hmodel eq_refl).
  - exact (proj1 (proj2 (proj2 (@input_checks_in_order well_behaved (llm 3 2)
                    "gpt-4o-mini" question (FmtObject PyNone) false ∅)))
             Hmodel Hmessages eq_refl).
  - exact (proj2 (proj2 (proj2 (@input_checks_in_order well_behaved (llm 3 2)
                    "gpt-4o-mini" question
                    (FmtClass (Class "dict" PyObject [])) false ∅)))
             _ Hmodel Hmessages eq_refl eq_refl).
Defined.

(** ** The pipeline: which value comes back *)

Lemma well_behaved_conforms : @provider_conforms well_behaved.
Proof. intros t k r v. cbn. intros [= <-]. by eexists. Qed.

Lemma flaky_fanout_conforms : @provider_conforms flaky_fanout.
Proof.
  intros t k r v. cbn.
  destruct t as [[|i]|]; destruct k; try done; intros [= <-]; by eexists.
Qed.

(** X11: with [pass_reasoning], when exactly one fan-out success survives
    and the provider parses instances of the class it is asked for, [parse]
    returns that success itself: an instance of the derived class, which
    carries the field [reasoning]. *)
Theorem single_success_returned_with_reasoning `{Env} (self : ParallelLLM)
    (model : string) (messages : list (gmap string string))
    (response_format : pyclass) (kwargs : gmap string pyval) (v : pyval) :
  valid_inputs model messages response_format →
  provider_conforms →
  successes (fanout_outcomes self
               (fanout_request model messages response_format true kwargs))
    = [v] →
  result (parse self model messages (FmtClass response_format) true kwargs)
    = Returned v ∧
  isinstance v (_create_reasoning_format response_format) = true ∧
  contains_field v "reasoning" = true.
Proof.
  intros Hvalid Hprovider Hone.
  destruct (fanout_success_returned self
              (fanout_request model messages response_format true kwargs) v)
    as (i & k & Hk).
  { rewrite Hone. by left. }
  apply Hprovider in Hk as [values ->]. cbn [fanout_request req_response_format].
  split; [|split].
  - rewrite parse_steps by done. unfold steps.
    rewrite result_bind, process_parallel_requests_result. cbv zeta.
    rewrite Hone, result_bind.
    change (_make_decision self [Instance _ values] response_format messages)
      with (@ret pyval (Instance (_create_reasoning_format response_format)
                                 values)).
    cbn [ret result snd]. rewrite validate_instance; [done|].
    apply issubclass_reasoning_format.
  - apply issubclass_refl.
  - cbn [contains_field]. apply orb_true_intro. left.
    apply reasoning_format_declares_reasoning.
Qed.

Lemma single_success_returned_with_reasoning_witness :
  let req := fanout_request "gpt-4o-mini" question Answer true ∅ in
  valid_inputs "gpt-4o-mini" question Answer ∧
  @provider_conforms well_behaved ∧
  successes (@fanout_outcomes well_behaved (llm 1 2) req)
    = [parsed_for req "42"] ∧
  result (@parse well_behaved (llm 1 2) "gpt-4o-mini" question
                 (FmtClass Answer) true ∅) = Returned (parsed_for req "42") ∧
  isinstance (parsed_for req "42") (_create_reasoning_format Answer) = true ∧
  contains_field (parsed_for req "42") "reasoning" = true.
Proof.
  cbv zeta.
  assert (valid_inputs "gpt-4o-mini" question Answer) as Hvalid.
  { unfold valid_inputs, question. by repeat split. }
  split; [exact Hvalid|]. split; [exact well_behaved_conforms|].
  split; [reflexivity|].
  exact (@single_success_returned_with_reasoning well_behaved (llm 1 2)
           "gpt-4o-mini" question Answer ∅ _ Hvalid well_behaved_conforms
           eq_refl).
Defined.

(** X12: with two or more fan-out successes and a synthesis call that
    succeeds, [parse] ends as the final validation of the decision maker's
    answer does; and when the provider parses instances of the class it is
    asked for, that answer is an instance of the caller's own class, with
    or without [pass_reasoning], and [parse] returns it as it is. *)
Theorem synthesized_answer_of_callers_class `{Env} (self : ParallelLLM)
    (model : string) (messages : list (gmap string string))
    (response_format : pyclass) (pass_reasoning : bool)
    (kwargs : gmap string pyval) (r0 r1 : pyval) (rest : list pyval)
    (decision_response : pyval) :
  valid_inputs model messages response_format →
  successes (fanout_outcomes self
               (fanout_request model messages response_format
                               pass_reasoning kwargs))
    = r0 :: r1 :: rest →
  result (synthesis_call self (r0 :: r1 :: rest) response_format messages)
    = Returned decision_response →
  result (parse self model messages (FmtClass response_format)
                pass_reasoning kwargs)
    = result (validate_final_response decision_response response_format) ∧
  (provider_conforms →
   result (parse self model messages (FmtClass response_format)
                 pass_reasoning kwargs) = Returned decision_response ∧
   ∃ values, decision_response = Instance response_format values).
Proof.
  intros Hvalid Hs Hd.
  assert (result (parse self model messages (FmtClass response_format)
                        pass_reasoning kwargs)
          = result (validate_final_response decision_response
                                            response_format)) as Hparse.
  { rewrite parse_steps by done. unfold steps.
    rewrite result_bind, process_parallel_requests_result. cbv zeta.
    by rewrite Hs, result_bind, make_decision_cons, Hd. }
  split; [done|]. intros Hprovider.
  pose proof Hd as (k & req & <- & Hk)%synthesis_call_returned.
  apply Hprovider in Hk as [values ->].
  split; [|by eexists].
  rewrite Hparse, validate_instance; [done|]. apply issubclass_refl.
Qed.

Lemma synthesized_answer_of_callers_class_witness :
  let req := fanout_request "gpt-4o-mini" question Answer true ∅ in
  let r0 := parsed_for req "answer 1" in
  let r1 := parsed_for req "answer 2" in
  let d := Instance Answer [("answer", PyStr "42")] in
  valid_inputs "gpt-4o-mini" question Answer ∧
  successes (@fanout_outcomes flaky_fanout (llm 3 2) req) = [r0; r1] ∧
  result (@synthesis_call flaky_fanout (llm 3 2) [r0; r1] Answer question)
    = Returned d ∧
  @provider_conforms flaky_fanout ∧
  result (@parse flaky_fanout (llm 3 2) "gpt-4o-mini" question
                 (FmtClass Answer) true ∅) = Returned d ∧
  ∃ values, d = Instance Answer values.
Proof.
  cbv zeta.
  assert (valid_inputs "gpt-4o-mini" question Answer) as Hvalid.
  { unfold valid_inputs, question. by repeat split. }
  split; [exact Hvalid|]. split; [reflexivity|]. split; [reflexivity|].
  split; [exact flaky_fanout_conforms|].
  exact (proj2 (@synthesized_answer_of_callers_class flaky_fanout (llm 3 2)
                  "gpt-4o-mini" question Answer true ∅ _ _ [] _
                  Hvalid eq_refl eq_refl)
           flaky_fanout_conforms).
Defined.

(** Scenarios of the two pipeline-level lemmas on the decision step. *)
Lemma parse_falls_back_to_first_witness :
  let req := fanout_request "gpt-4o-mini" question Answer false ∅ in
  let r0 := parsed_for req "answer 1" in
  let r1 := parsed_for req "answer 2" in
  valid_inputs "gpt-4o-mini" question Answer ∧
  successes (@fanout_outcomes flaky (llm 3 2) req) = [r0; r1] ∧
  is_Raised (result (@synthesis_call flaky (llm 3 2) [r0; r1] Answer
                       question)) = true ∧
  isinstance r0 Answer = true ∧
  result (@parse flaky (llm 3 2) "gpt-4o-mini" question (FmtClass Answer)
                 false ∅) = Returned r0.
Proof.
  cbv zeta.
  assert (valid_inputs "gpt-4o-mini" question Answer) as Hvalid.
  { unfold valid_inputs, question. by repeat split. }
  split; [exact Hvalid|]. split; [reflexivity|]. split; [reflexivity|].
  split; [reflexivity|].
  exact (proj2 (@parse_falls_back_to_first flaky (llm 3 2) "gpt-4o-mini"
                  question Answer false ∅ _ _ Hvalid eq_refl eq_refl)
           eq_refl).
Defined.

Lemma single_success_no_decision_call_witness :
  let req := fanout_request "gpt-4o-mini" question Answer false ∅ in
  valid_inputs "gpt-4o-mini" question Answer ∧
  successes (@fanout_outcomes well_behaved (llm 1 2) req)
    = [parsed_for req "42"] ∧
  trace (@parse well_behaved (llm 1 2) "gpt-4o-mini" question
                (FmtClass Answer) false ∅)
    = trace (@_process_parallel_requests well_behaved (llm 1 2) "gpt-4o-mini"
               question Answer false ∅) ∧
  result (@parse well_behaved (llm 1 2) "gpt-4o-mini" question
                 (FmtClass Answer) false ∅)
    = result (@validate_final_response well_behaved (parsed_for req "42")
                Answer).
Proof.
  cbv zeta.
  assert (valid_inputs "gpt-4o-mini" question Answer) as Hvalid.
  { unfold valid_inputs, question. by repeat split. }
  split; [exact Hvalid|]. split; [reflexivity|].
  exact (@single_success_no_decision_call well_behaved (llm 1 2) "gpt-4o-mini"
           question Answer false ∅ _ Hvalid eq_refl).
Defined.

(** ** The derived class *)

Lemma issubclass_depth c d : issubclass c d = true → depth d ≤ depth c.
Proof.
  induction c as [| |name base IH fields]; cbn [issubclass].
  - rewrite orb_false_r. by intros <-%bool_decide_eq_true.
  - rewrite orb_false_r. by intros <-%bool_decide_eq_true.
  - intros [<-%bool_decide_eq_true|Hbase]%orb_true_iff; [done|].
    specialize (IH Hbase). cbn. lia.
Qed.

(** X16: the class [_create_reasoning_format] derives is a strict subclass
    of the original: it derives from the original and from everything the
    original derives from, the original does not derive from it (so an
    instance of the caller's class is no instance of the derived one), it
    declares [reasoning], its fields are those of the original, followed by
    [reasoning] unless the original declares that field already (the field
    is then overridden where it stands), and it is named after the
    original. *)
Theorem reasoning_format_strictly_extends (original_format : pyclass) :
  let derived := _create_reasoning_format original_format in
  issubclass derived original_format = true ∧
  issubclass original_format derived = false ∧
  (∀ d, issubclass original_format d = true → issubclass derived d = true) ∧
  (∀ values, isinstance (Instance original_format values) derived = false) ∧
  declares_field derived "reasoning" = true ∧
  model_fields derived
  = (if declares_field original_format "reasoning"
     then model_fields original_format
     else model_fields original_format ++ ["reasoning"])%list ∧
  __name__ derived = __name__ original_format ++ "WithReasoning".
Proof.
  cbv zeta.
  assert (issubclass original_format
            (_create_reasoning_format original_format) = false) as Hstrict.
  { apply not_true_is_false. intros Hsub%issubclass_depth. cbn in Hsub. lia. }
  split; [apply issubclass_reasoning_format|]. split; [done|].
  split; [|split; [done|split; [apply reasoning_format_declares_reasoning|]]].
  - intros d Hd. cbn [_create_reasoning_format issubclass].
    rewrite Hd. apply orb_true_r.
  - split; [|done]. cbn. unfold add_field, declares_field.
    destruct (decide ("reasoning" ∈ model_fields original_format)).
    + by rewrite bool_decide_eq_true_2.
    + by rewrite bool_decide_eq_false_2.
Qed.

Lemma reasoning_format_strictly_extends_witness :
  issubclass Answer BaseModel = true ∧
  issubclass (_create_reasoning_format Answer) BaseModel = true.
Proof.
  split; [reflexivity|].
  exact (proj1 (proj2 (proj2 (reasoning_format_strictly_extends Answer)))
           BaseModel eq_refl).
Defined.

(** ** The cost of a total failure *)

Section TotalFailure.
Context `{Env} (self : ParallelLLM).

Lemma attempt_loop_raised t req b a :
  a + b = max_retries (config self) →
  is_Raised (result (attempt_loop self t req (seq a (S b)))) = true →
  ∀ j, j ≤ b → failed (openai_client t (a + j) req) = true.
Proof.
  revert a. induction b as [|b IH]; intros a Hab.
  - cbn [seq attempt_loop]. rewrite result_emit.
    intros Hraised j Hj. assert (j = 0) as -> by lia. rewrite Nat.add_0_r.
    by destruct (openai_client t a req).
  - cbn [seq attempt_loop]. rewrite result_emit.
    rewrite bool_decide_eq_false_2 by lia.
    specialize (IH (S a) ltac:(lia)). cbn [seq] in IH.
    intros Hraised j Hj.
    assert (failed (openai_client t a req) = true
            ∧ is_Raised (result (attempt_loop self t req
                                   (S a :: seq (S (S a)) b))) = true)
      as [Ha Hrest].
    { destruct (openai_client t a req);
        [done|rewrite result_emit in Hraised; split; [done|exact Hraised] ..]. }
    destruct j as [|j]; [by rewrite Nat.add_0_r|].
    replace (a + S j) with (S a + j) by lia. apply IH; [done|lia].
Qed.

Lemma calls_concat_exact (f : nat → list event) c start n :
  (∀ i, start ≤ i < start + n → calls (f i) = c) →
  calls (concat (f <$> seq start n)) = n * c.
Proof.
  revert start. induction n as [|n IH]; intros start Hf; [done|].
  cbn [seq]. rewrite fmap_cons. cbn [concat].
  rewrite calls_app, IH, Hf; [lia|lia|].
  intros i Hi. apply Hf. lia.
Qed.

(** An executor that raises has used its whole budget. *)
Lemma single_request_raised_calls t req :
  is_Raised (result (_make_single_request self t req)) = true →
  calls (trace (_make_single_request self t req))
  = max_retries (config self) + 1.
Proof.
  intros Hraised. rewrite single_request_trace, calls_retry_trace.
  rewrite (leading_failures_first_success t req 0 _
             (max_retries (config self))); [lia|done| |lia].
  intros j Hj. revert Hraised. unfold _make_single_request.
  rewrite Nat.add_1_r. intros Hraised.
  apply (attempt_loop_raised t req _ 0 eq_refl Hraised j). lia.
Qed.

End TotalFailure.

(** X17: when every fan-out processor fails, [parse] has made exactly
    [num_processors * (max_retries + 1)] provider calls, all of them by the
    fan-out tasks with the fan-out request: the decision maker is not
    called. *)
Theorem total_failure_cost `{Env} (self : ParallelLLM)
    (model : string) (messages : list (gmap string string))
    (response_format : pyclass) (pass_reasoning : bool)
    (kwargs : gmap string pyval) :
  valid_inputs model messages response_format →
  (∀ i, i < num_processors (config self) →
        is_Raised (result (_make_single_request self (Processor i)
                             (fanout_request model messages response_format
                                             pass_reasoning kwargs))) = true) →
  let tr :=
    trace (parse self model messages (FmtClass response_format)
                 pass_reasoning kwargs) in
  calls tr = num_processors (config self) * (max_retries (config self) + 1) ∧
  Forall (fanout_event self
            (fanout_request model messages response_format
                            pass_reasoning kwargs)) tr.
Proof.
  intros Hvalid Hall. cbv zeta.
  rewrite parse_steps by done. rewrite steps_trace.
  assert (∃ e, result (_process_parallel_requests self model messages
                         response_format pass_reasoning kwargs) = Raised e)
    as [e ->].
  { rewrite process_parallel_requests_result. cbv zeta.
    set (outcomes := fanout_outcomes self _).
    assert (successes outcomes = []) as ->; [|by eexists].
    apply successes_nil_iff. intros o [i Hi]%list_elem_of_lookup.
    pose proof (lookup_lt_Some _ _ _ Hi) as Hlt.
    unfold outcomes in Hlt, Hi. rewrite fanout_outcomes_length in Hlt.
    rewrite fanout_outcomes_lookup in Hi by done.
    injection Hi as <-. by apply Hall. }
  rewrite app_nil_r, process_parallel_requests_trace. split.
  - apply calls_concat_exact. intros i Hi.
    apply single_request_raised_calls, Hall. lia.
  - apply Forall_concat, Forall_fmap, Forall_forall.
    intros i [_ Hi]%elem_of_seq. by apply single_request_fanout_event.
Qed.

Lemma total_failure_cost_witness :
  let req := fanout_request "gpt-4o-mini" question Answer false ∅ in
  let tr :=
    trace (@parse always_timeout (llm 5 2) "gpt-4o-mini" question
                  (FmtClass Answer) false ∅) in
  valid_inputs "gpt-4o-mini" question Answer ∧
  (∀ i, i < 5 →
        is_Raised (result (@_make_single_request always_timeout (llm 5 2)
                             (Processor i) req)) = true) ∧
  calls tr = 15 ∧ Forall (fanout_event (llm 5 2) req) tr.
Proof.
  cbv zeta.
  assert (valid_inputs "gpt-4o-mini" question Answer) as Hvalid.
  { unfold valid_inputs, question. by repeat split. }
  assert (∀ i, i < num_processors (config (llm 5 2)) →
        is_Raised (result (@_make_single_request always_timeout (llm 5 2)
                             (Processor i)
                             (fanout_request "gpt-4o-mini" question Answer
                                             false ∅))) = true) as Hall.
  { intros i _. reflexivity. }
  split; [exact Hvalid|]. split; [exact Hall|].
  exact (@total_failure_cost always_timeout (llm 5 2) "gpt-4o-mini" question
           Answer false ∅ Hvalid Hall).
Defined.

(** * The fallback and the empty candidate list, at both levels *)

Lemma bind_ret_r {A} (m : io A) : m ≫= (λ a, ret a) = m.
Proof. destruct m as [tr [a|e]]; cbn; by rewrite ?app_nil_r. Qed.

Lemma context_lines_renderable (messages : list (gmap string string)) :
  Forall (λ msg, is_Some (msg !! "role") ∧ is_Some (msg !! "content"))
         messages →
  ∃ lines, context_lines messages = ([], Returned lines).
Proof.
  induction 1 as [|msg rest [[role Hrole] [content Hcontent]] _ [lines IH]].
  { by exists []. }
  exists ((role ++ ": " ++ content) :: lines).
  cbn [context_lines]. unfold getitem.
  by rewrite Hrole, Hcontent, !bind_ret, IH.
Qed.

(** C4, as the code has it: when the synthesis call fails and there is at
    least one candidate, the decision step returns the first candidate
    instead of the error.  [parse] then ends as the final validation of
    that candidate does: it returns the candidate itself when it is an
    instance of [response_format]. *)
Theorem fallback_to_first_candidate `{Env} (self : ParallelLLM)
    (responses : list pyval) (first_candidate : pyval)
    (response_format : pyclass)
    (original_messages : list (gmap string string)) :
  responses !! 0 = Some first_candidate →
  is_Raised (result (synthesis_call self responses response_format
                                    original_messages)) = true →
  result (_make_decision self responses response_format original_messages)
    = Returned first_candidate ∧
  ∀ model pass_reasoning kwargs,
    valid_inputs model original_messages response_format →
    successes (fanout_outcomes self
                 (fanout_request model original_messages response_format
                                 pass_reasoning kwargs)) = responses →
    result (parse self model original_messages (FmtClass response_format)
                  pass_reasoning kwargs)
      = result (validate_final_response first_candidate response_format) ∧
    (isinstance first_candidate response_format = true →
     result (parse self model original_messages (FmtClass response_format)
                   pass_reasoning kwargs) = Returned first_candidate).
Proof.
  intros Hfirst Hfail.
  destruct responses as [|r0 rest]; [done|].
  injection Hfirst as ->.
  assert (result (_make_decision self (first_candidate :: rest)
                    response_format original_messages)
          = Returned first_candidate) as Hdecision.
  { rewrite make_decision_cons. destruct rest; [done|].
    by destruct (result (synthesis_call _ _ _ _)). }
  split; [done|].
  intros model pass_reasoning kwargs Hvalid Hs.
  assert (result (parse self model original_messages
                        (FmtClass response_format) pass_reasoning kwargs)
          = result (validate_final_response first_candidate response_format))
    as Hparse.
  { rewrite parse_steps by done. unfold steps.
    rewrite result_bind, process_parallel_requests_result. cbv zeta.
    by rewrite Hs, result_bind, Hdecision. }
  split; [done|]. intros Hinstance. by rewrite Hparse, validate_instance.
Qed.

Lemma fallback_to_first_candidate_witness :
  let req := fanout_request "gpt-4o-mini" question Answer false ∅ in
  let r0 := parsed_for req "answer 1" in
  let r1 := parsed_for req "answer 2" in
  [r0; r1] !! 0 = Some r0 ∧
  is_Raised (result (@synthesis_call flaky (llm 3 2) [r0; r1] Answer question))
    = true ∧
  valid_inputs "gpt-4o-mini" question Answer ∧
  successes (@fanout_outcomes flaky (llm 3 2) req) = [r0; r1] ∧
  isinstance r0 Answer = true ∧
  result (@_make_decision flaky (llm 3 2) [r0; r1] Answer question)
    = Returned r0 ∧
  result (@parse flaky (llm 3 2) "gpt-4o-mini" question (FmtClass Answer)
                 false ∅) = Returned r0.
Proof.
  cbv zeta.
  assert (valid_inputs "gpt-4o-mini" question Answer) as Hvalid.
  { unfold valid_inputs, question. by repeat split. }
  pose proof (@fallback_to_first_candidate flaky (llm 3 2)
                [parsed_for (fanout_request "gpt-4o-mini" question Answer
                                            false ∅) "answer 1";
                 parsed_for (fanout_request "gpt-4o-mini" question Answer
                                            false ∅) "answer 2"]
                _ Answer question eq_refl eq_refl) as [Hdecision Hparse].
  split; [reflexivity|]. split; [reflexivity|]. split; [exact Hvalid|].
  split; [reflexivity|]. split; [reflexivity|]. split; [exact Hdecision|].
  exact (proj2 (Hparse "gpt-4o-mini" false ∅ Hvalid eq_refl) eq_refl).
Defined.

(** C4 as stated fails at the level of the pipeline: two processors succeed
    with nothing parsed, the decision maker's call fails, the decision step
    falls back to the first candidate, [None], and [parse] raises
    [ValidationError] instead of returning it. *)
Lemma fallback_candidate_fails_validation :
  successes (@fanout_outcomes refusing_fanout (llm 2 2)
               (fanout_request "gpt-4o-mini" question Answer false ∅))
    = [PyNone; PyNone] ∧
  is_Raised (result (@synthesis_call refusing_fanout (llm 2 2)
                       [PyNone; PyNone] Answer question)) = true ∧
  result (@_make_decision refusing_fanout (llm 2 2) [PyNone; PyNone] Answer
            question) = Returned PyNone ∧
  result (@parse refusing_fanout (llm 2 2) "gpt-4o-mini" question
                 (FmtClass Answer) false ∅)
  = Raised (ValidationError
              "Failed to validate final response: Input should be a valid dictionary or instance") ∧
  result (@parse refusing_fanout (llm 2 2) "gpt-4o-mini" question
                 (FmtClass Answer) false ∅) ≠ Returned PyNone.
Proof.
  split; [reflexivity|]. split; [reflexivity|]. split; [reflexivity|].
  split; [reflexivity|]. intros Hreturned. vm_compute in Hreturned.
  discriminate.
Qed.

Section EmptyCandidates.
Context `{Env} (self : ParallelLLM).
Context (fmt : pyclass) (messages : list (gmap string string)).
Context (lines : list string).
Hypothesis Hlines : context_lines messages = ([], Returned lines).

(** On an empty list and a conversation that renders, the decision step is
    one run of the executor on the decision request, under the handler. *)
Lemma make_decision_nil_run :
  let run :=
    _make_single_request self DecisionMaker
      (decision_request self fmt (String.concat nl lines) "") in
  trace (_make_decision self [] fmt messages) = trace run ∧
  result (_make_decision self [] fmt messages) =
  match result run with
  | Returned decision_response => Returned decision_response
  | Raised e =>
      Raised (DecisionMakerError
                ("Decision maker failed and no fallback available: "
                   ++ exn_str e))
  end.
Proof.
  cbv zeta.
  assert (synthesis_call self [] fmt messages
          = _make_single_request self DecisionMaker
              (decision_request self fmt (String.concat nl lines) ""))
    as Hsynthesis.
  { unfold synthesis_call. rewrite Hlines.
    change (@pair (list event) (outcome (list string)) [] (Returned lines))
      with (ret lines).
    rewrite bind_ret. apply bind_ret_r. }
  rewrite make_decision_nil, trace_try_except, result_try_except, Hsynthesis.
  destruct (result (_make_single_request _ _ _)); [done|].
  split; [apply app_nil_r|done].
Qed.

End EmptyCandidates.

(** C7, as the code has it: nothing stops the decision step on an empty
    candidate list.  When every message of the conversation has its role
    and content, the step calls the provider with the decision request, at
    least once and at most [max_retries + 1] times; it returns the value of
    the first attempt that completes, and raises [DecisionMakerError] only
    when all [max_retries + 1] attempts fail.  When a message lacks its role
    or content, it raises [DecisionMakerError] without any call. *)
Theorem empty_candidates_call_decision_maker `{Env} (self : ParallelLLM)
    (response_format : pyclass)
    (original_messages : list (gmap string string)) :
  let run := _make_decision self [] response_format original_messages in
  (Forall (λ msg, is_Some (msg !! "role") ∧ is_Some (msg !! "content"))
          original_messages →
   ∃ lines,
     context_lines original_messages = ([], Returned lines) ∧
     let req :=
       decision_request self response_format (String.concat nl lines) "" in
     (∃ later, trace run = Call DecisionMaker 0 req :: later) ∧
     1 ≤ calls (trace run) ≤ max_retries (config self) + 1 ∧
     (∀ k v,
        k ≤ max_retries (config self) →
        (∀ j, j < k → failed (openai_client DecisionMaker j req) = true) →
        openai_client DecisionMaker k req = Completed v →
        result run = Returned v ∧ calls (trace run) = k + 1) ∧
     ((∀ j, j ≤ max_retries (config self) →
            failed (openai_client DecisionMaker j req) = true) →
      calls (trace run) = max_retries (config self) + 1 ∧
      ∃ e, result (_make_single_request self DecisionMaker req) = Raised e ∧
           result run
           = Raised (DecisionMakerError
                       ("Decision maker failed and no fallback available: "
                          ++ exn_str e)))) ∧
  (lacks_key original_messages →
   trace run = [] ∧
   ∃ key, (key = "role" ∨ key = "content") ∧
          result run
          = Raised (DecisionMakerError
                      ("Decision maker failed and no fallback available: '"
                         ++ key ++ "'"))).
Proof.
  cbv zeta. split.
  - intros (lines & Hlines)%context_lines_renderable.
    exists lines. split; [done|]. cbv zeta.
    destruct (make_decision_nil_run self response_format original_messages
                lines Hlines) as [Htrace Hresult].
    cbv zeta in Htrace, Hresult. rewrite Htrace, Hresult.
    set (req := decision_request self response_format
                  (String.concat nl lines) "").
    pose proof (leading_failures_le DecisionMaker req 0
                  (max_retries (config self))) as Hle.
    rewrite single_request_trace, calls_retry_trace.
    split; [by eexists|]. split; [lia|]. split.
    + intros k v Hk Hfail Hv.
      rewrite (leading_failures_first_success DecisionMaker req 0 _ k);
        [|done|done|intros _; cbn; by rewrite Hv].
      split; [|lia].
      unfold _make_single_request. rewrite Nat.add_1_r.
      by rewrite (attempt_loop_first_success self DecisionMaker req 0 _ k v).
    + intros Hfail.
      rewrite (leading_failures_first_success DecisionMaker req 0 _
                 (max_retries (config self)));
        [|done|intros j Hj; apply Hfail; lia|lia].
      split; [lia|].
      assert (∃ e, result (_make_single_request self DecisionMaker req)
                   = Raised e) as [e He].
      { unfold _make_single_request. rewrite Nat.add_1_r.
        rewrite attempt_loop_exhausted by done.
        cbn [attempt_loop]. rewrite result_emit.
        rewrite bool_decide_eq_true_2 by done.
        pose proof (Hfail (max_retries (config self)) ltac:(lia)) as Hlast.
        destruct (openai_client DecisionMaker _ req); [done|by eexists ..]. }
      exists e. by rewrite He.
  - intros (key & Hkey & Hlines)%context_lines_lacks_key.
    assert (_make_decision self [] response_format original_messages
            = ([], Raised (DecisionMakerError
                             ("Decision maker failed and no fallback available: '"
                                ++ key ++ "'")))) as ->.
    { rewrite make_decision_nil. unfold synthesis_call. by rewrite Hlines. }
    split; [done|]. by exists key.
Qed.

Lemma empty_candidates_call_decision_maker_witness :
  let run := @_make_decision well_behaved (llm 3 2) [] Answer question in
  let req :=
    decision_request (llm 3 2) Answer "user: What is 6 x 7?" "" in
  Forall (λ msg, is_Some (msg !! "role") ∧ is_Some (msg !! "content"))
         question ∧
  @openai_client well_behaved DecisionMaker 0 req
    = Completed (Instance Answer [("answer", PyStr "42")]) ∧
  result run = Returned (Instance Answer [("answer", PyStr "42")]) ∧
  calls (trace run) = 1 ∧
  lacks_key headless ∧
  trace (@_make_decision well_behaved (llm 3 2) [] Answer headless) = [].
Proof.
  cbv zeta.
  assert (Forall (λ msg, is_Some (msg !! "role") ∧ is_Some (msg !! "content"))
                 question) as Hrenders.
  { repeat constructor; by eexists. }
  assert (lacks_key headless) as Hlacks.
  { exists {[ "role" := "user" ]}. split; [right; left|by right]. }
  pose proof (@empty_candidates_call_decision_maker well_behaved (llm 3 2)
                Answer question) as [Hcalls _].
  pose proof (@empty_candidates_call_decision_maker well_behaved (llm 3 2)
                Answer headless) as [_ Hnone].
  destruct (Hcalls Hrenders) as (lines & Hlines & _ & _ & Hfirst & _).
  injection Hlines as <-.
  destruct (Hfirst 0 (Instance Answer [("answer", PyStr "42")])
              ltac:(cbn; lia) ltac:(intros j Hj; lia) eq_refl)
    as [Hresult Hcount].
  split; [exact Hrenders|]. split; [reflexivity|].
  split; [exact Hresult|]. split; [exact Hcount|].
  split; [exact Hlacks|]. exact (proj1 (Hnone Hlacks)).
Defined.
